(** * The report page of trashtrack

    A shallow embedding of [app/report/page.tsx]: the page state of
    [ReportPage], its event handlers [handleFileChange], [handleVerify],
    [handleSubmit] and the mount effect [checkUser], together with the pieces
    of the JavaScript runtime the handlers lean on (truthiness, property
    lookup, [String.prototype.split], [JSON.parse] and
    [Date.prototype.toISOString]).

    A handler is a function from the state captured by its closure and the
    answers of the outside world to the list of effects it performs, in
    program order.  State setters are effects like the others; [run] applies
    them to a page state. *)

From Stdlib Require Import List ZArith NArith Bool String Ascii Lia SpecFloat.
Import ListNotations.

Local Open Scope Z_scope.

#[local] Set Warnings "-register-all".

(** ** JavaScript values *)

Module JS.

(** A JavaScript string is a sequence of UTF-16 code units. *)
Definition jsstring := list N.

(** An ASCII literal as a JavaScript string. *)
Definition str (s : string) : jsstring :=
  map N_of_ascii (list_ascii_of_string s).

Arguments str : simpl never.

(** The code unit of the double quote, and a quoted ASCII literal. *)
Definition dq : N := 34%N.

Definition quoted (s : string) : jsstring := dq :: str s ++ [dq].

(** A Number is an IEEE 754 binary64 value. *)
Definition Number := spec_float.

Definition prec : Z := 53.
Definition emax : Z := 1024.

Inductive JSValue :=
  | JUndefined
  | JNull
  | JBool (b : bool)
  | JNum (n : Number)
  | JStr (s : jsstring)
  | JArr (elems : list JSValue)
  | JObj (fields : list (jsstring * JSValue)).

Definition jsstring_eqb (a b : jsstring) : bool :=
  if list_eq_dec N.eq_dec a b then true else false.

(** ToBoolean: undefined, null, false, +0, -0, NaN and the empty string are
    falsy, every other value (objects and arrays included) is truthy. *)
Definition truthy (v : JSValue) : bool :=
  match v with
  | JUndefined | JNull => false
  | JBool b => b
  | JNum (S754_zero _) | JNum S754_nan => false
  | JNum _ => true
  | JStr [] => false
  | JStr _ => true
  | JArr _ | JObj _ => true
  end.

Fixpoint assoc (k : jsstring) (fields : list (jsstring * JSValue))
  : option JSValue :=
  match fields with
  | [] => None
  | (k', v) :: rest => if jsstring_eqb k k' then Some v else assoc k rest
  end.

(** [v.k] for a property name [k] that no built-in prototype defines (the
    page reads [wasteType], [quantity] and [confidence] only): an own
    property of an object, undefined on any other value, and a TypeError
    ([None]) on null and undefined. *)
Definition prop (v : JSValue) (k : jsstring) : option JSValue :=
  match v with
  | JUndefined | JNull => None
  | JObj fields =>
      match assoc k fields with
      | Some x => Some x
      | None => Some JUndefined
      end
  | _ => Some JUndefined
  end.

(** [s.split(sep)] for a separator of one code unit. *)
Fixpoint split (sep : N) (s : jsstring) : list jsstring :=
  match s with
  | [] => [[]]
  | c :: rest =>
      if N.eqb c sep then [] :: split sep rest
      else match split sep rest with
           | h :: t => (c :: h) :: t
           | [] => [[c]]
           end
  end.

End JS.

Import JS.

(** ** Date.prototype.toISOString *)

Module Date.

(** A Date holds a time value: milliseconds since the epoch, or NaN. *)
Inductive Date :=
  | Invalid
  | TimeValue (ms : Z).

Definition msPerDay : Z := 86400000.
Definition maxTime : Z := 8640000000000000.

(** [width] decimal digits of [n], most significant first. *)
Fixpoint digits (width : nat) (n : Z) : jsstring :=
  match width with
  | O => []
  | S w => digits w (n / 10) ++ [(48 + Z.to_N (n mod 10))%N]
  end.

(** Year, month and day of a day number counted from 1970-01-01, in the
    proleptic Gregorian calendar. *)
Definition civil (day : Z) : Z * Z * Z :=
  let z := day + 719468 in
  let era := z / 146097 in
  let doe := z - era * 146097 in
  let yoe := (doe - doe / 1460 + doe / 36524 - doe / 146096) / 365 in
  let doy := doe - (365 * yoe + yoe / 4 - yoe / 100) in
  let mp := (5 * doy + 2) / 153 in
  let d := doy - (153 * mp + 2) / 5 + 1 in
  let m := if mp <? 10 then mp + 3 else mp - 9 in
  let y := yoe + era * 400 + (if m <=? 2 then 1 else 0) in
  (y, m, d).

Definition yearString (y : Z) : jsstring :=
  if (0 <=? y) && (y <=? 9999) then digits 4 y
  else if y <? 0 then str "-" ++ digits 6 (- y)
  else str "+" ++ digits 6 y.

(** The calendar day of a time value, as YYYY-MM-DD. *)
Definition dayString (ms : Z) : jsstring :=
  let '(y, m, d) := civil (ms / msPerDay) in
  yearString y ++ str "-" ++ digits 2 m ++ str "-" ++ digits 2 d.

Definition timeString (ms : Z) : jsstring :=
  let t := ms mod msPerDay in
  digits 2 (t / 3600000) ++ str ":" ++ digits 2 (t / 60000 mod 60)
    ++ str ":" ++ digits 2 (t / 1000 mod 60) ++ str "." ++ digits 3 (t mod 1000).

(** [d.toISOString()]; [None] is the RangeError of an invalid date. *)
Definition toISOString (d : Date) : option jsstring :=
  match d with
  | Invalid => None
  | TimeValue ms =>
      if (- maxTime <=? ms) && (ms <=? maxTime)
      then Some (dayString ms ++ str "T" ++ timeString ms ++ str "Z")
      else None
  end.

End Date.

(** ** JSON.parse *)

Module JSON.

Inductive Result (A : Type) :=
  | Parsed (a : A) (rest : jsstring)
  | SyntaxError
  | OutOfFuel.

Arguments Parsed {A} a rest.
Arguments SyntaxError {A}.
Arguments OutOfFuel {A}.

(** JSON white space: tab, line feed, carriage return and space. *)
Definition is_ws (c : N) : bool :=
  (N.eqb c 9 || N.eqb c 10 || N.eqb c 13 || N.eqb c 32)%N.

Fixpoint skip_ws (s : jsstring) : jsstring :=
  match s with
  | c :: rest => if is_ws c then skip_ws rest else s
  | [] => []
  end.

Definition is_digit (c : N) : bool := (N.leb 48 c && N.leb c 57)%N.

Definition hex_value (c : N) : option N :=
  if (N.leb 48 c && N.leb c 57)%N then Some (c - 48)%N
  else if (N.leb 65 c && N.leb c 70)%N then Some (c - 55)%N
  else if (N.leb 97 c && N.leb c 102)%N then Some (c - 87)%N
  else None.

(** The characters of a string literal after its opening quote. *)
Fixpoint parse_chars (s : jsstring) (acc : jsstring) : Result jsstring :=
  match s with
  | [] => SyntaxError
  | c :: rest =>
      if N.eqb c 34 then Parsed (rev acc) rest
      else if N.eqb c 92 then
        match rest with
        | e :: rest' =>
            if N.eqb e 34 then parse_chars rest' (34%N :: acc)
            else if N.eqb e 92 then parse_chars rest' (92%N :: acc)
            else if N.eqb e 47 then parse_chars rest' (47%N :: acc)
            else if N.eqb e 98 then parse_chars rest' (8%N :: acc)
            else if N.eqb e 102 then parse_chars rest' (12%N :: acc)
            else if N.eqb e 110 then parse_chars rest' (10%N :: acc)
            else if N.eqb e 114 then parse_chars rest' (13%N :: acc)
            else if N.eqb e 116 then parse_chars rest' (9%N :: acc)
            else if N.eqb e 117 then
              match rest' with
              | h1 :: h2 :: h3 :: h4 :: rest'' =>
                  match hex_value h1, hex_value h2, hex_value h3, hex_value h4 with
                  | Some a, Some b, Some c', Some d =>
                      parse_chars rest'' ((((a * 16 + b) * 16 + c') * 16 + d)%N :: acc)
                  | _, _, _, _ => SyntaxError
                  end
              | _ => SyntaxError
              end
            else SyntaxError
        | [] => SyntaxError
        end
      else if N.ltb c 32 then SyntaxError
      else parse_chars rest (c :: acc)
  end.

(** A run of decimal digits: its value, its length and what follows. *)
Fixpoint scan_digits (s : jsstring) (acc : Z) (len : Z) : Z * Z * jsstring :=
  match s with
  | c :: rest =>
      if is_digit c then scan_digits rest (acc * 10 + Z.of_N (c - 48)) (len + 1)
      else (acc, len, s)
  | [] => (acc, len, [])
  end.

(** The Number nearest to [m * 10 ^ e] (ties to even), [m] not negative. *)
Definition to_number (neg : bool) (m e : Z) : Number :=
  if m =? 0 then S754_zero neg
  else if 0 <=? e then
    binary_normalize prec emax (cond_Zopp neg (m * 10 ^ e)) 0 neg
  else
    let d := 10 ^ (- e) in
    let k := Z.log2 d + 56 in
    let q := (m * 2 ^ k) / d in
    let q' := if (m * 2 ^ k) mod d =? 0 then q else Z.lor q 1 in
    binary_normalize prec emax (cond_Zopp neg q') (- k) neg.

(** A number literal, the sign already read:
    int, optional fraction, optional exponent. *)
Definition parse_number (neg : bool) (s : jsstring) : Result JSValue :=
  match s with
  | c :: rest =>
      if is_digit c then
        let '(i, s1) :=
          if N.eqb c 48 then (0, rest)
          else let '(v, _, r) := scan_digits s 0 0 in (v, r) in
        let frac :=
          match s1 with
          | dot :: r =>
              if N.eqb dot 46 then
                let '(v, len, r') := scan_digits r i 0 in
                if len =? 0 then None else Some (v, len, r')
              else Some (i, 0, s1)
          | [] => Some (i, 0, s1)
          end in
        match frac with
        | None => SyntaxError
        | Some (m, flen, s2) =>
            match s2 with
            | e :: r =>
                if N.eqb e 101 || N.eqb e 69 then
                  let '(eneg, r1) :=
                    match r with
                    | sg :: r' =>
                        if N.eqb sg 45 then (true, r')
                        else if N.eqb sg 43 then (false, r')
                        else (false, r)
                    | [] => (false, r)
                    end in
                  let '(x, xlen, r2) := scan_digits r1 0 0 in
                  if xlen =? 0 then SyntaxError
                  else Parsed (JNum (to_number neg m (cond_Zopp eneg x - flen))) r2
                else Parsed (JNum (to_number neg m (- flen))) s2
            | [] => Parsed (JNum (to_number neg m (- flen))) s2
            end
        end
      else SyntaxError
  | [] => SyntaxError
  end.

Fixpoint strip_prefix (p s : jsstring) : option jsstring :=
  match p, s with
  | [], _ => Some s
  | a :: p', b :: s' => if N.eqb a b then strip_prefix p' s' else None
  | _ :: _, [] => None
  end.

Definition literal (word : string) (v : JSValue) (s : jsstring)
  : Result JSValue :=
  match strip_prefix (str word) s with
  | Some rest => Parsed v rest
  | None => SyntaxError
  end.

(** Defining a property that exists replaces its value in place. *)
Fixpoint set_field (k : jsstring) (v : JSValue)
  (fields : list (jsstring * JSValue)) : list (jsstring * JSValue) :=
  match fields with
  | [] => [(k, v)]
  | (k', v') :: rest =>
      if jsstring_eqb k k' then (k', v) :: rest
      else (k', v') :: set_field k v rest
  end.

(** A value, white space before it skipped; [parse_elements] reads the
    elements of an array after the first bracket or a comma, [parse_members]
    the members of an object. *)
Fixpoint parse_value (fuel : nat) (s : jsstring) : Result JSValue :=
  match fuel with
  | O => OutOfFuel
  | S n =>
      match skip_ws s with
      | [] => SyntaxError
      | c :: rest =>
          if N.eqb c 123 then
            match skip_ws rest with
            | c' :: rest' =>
                if N.eqb c' 125 then Parsed (JObj []) rest'
                else parse_members n [] rest
            | [] => SyntaxError
            end
          else if N.eqb c 91 then
            match skip_ws rest with
            | c' :: rest' =>
                if N.eqb c' 93 then Parsed (JArr []) rest'
                else parse_elements n [] rest
            | [] => SyntaxError
            end
          else if N.eqb c 34 then
            match parse_chars rest [] with
            | Parsed k r => Parsed (JStr k) r
            | SyntaxError => SyntaxError
            | OutOfFuel => OutOfFuel
            end
          else if N.eqb c 45 then parse_number true rest
          else if is_digit c then parse_number false (c :: rest)
          else if N.eqb c 116 then literal "true" (JBool true) (c :: rest)
          else if N.eqb c 102 then literal "false" (JBool false) (c :: rest)
          else if N.eqb c 110 then literal "null" JNull (c :: rest)
          else SyntaxError
      end
  end

with parse_elements (fuel : nat) (acc : list JSValue) (s : jsstring)
  : Result JSValue :=
  match fuel with
  | O => OutOfFuel
  | S n =>
      match parse_value n s with
      | Parsed v r =>
          match skip_ws r with
          | c :: r' =>
              if N.eqb c 44 then parse_elements n (v :: acc) r'
              else if N.eqb c 93 then Parsed (JArr (rev (v :: acc))) r'
              else SyntaxError
          | [] => SyntaxError
          end
      | SyntaxError => SyntaxError
      | OutOfFuel => OutOfFuel
      end
  end

with parse_members (fuel : nat) (acc : list (jsstring * JSValue))
  (s : jsstring) : Result JSValue :=
  match fuel with
  | O => OutOfFuel
  | S n =>
      match skip_ws s with
      | q :: r0 =>
          if N.eqb q 34 then
            match parse_chars r0 [] with
            | Parsed k r1 =>
                match skip_ws r1 with
                | colon :: r2 =>
                    if N.eqb colon 58 then
                      match parse_value n r2 with
                      | Parsed v r3 =>
                          match skip_ws r3 with
                          | c :: r4 =>
                              if N.eqb c 44
                              then parse_members n (set_field k v acc) r4
                              else if N.eqb c 125
                              then Parsed (JObj (set_field k v acc)) r4
                              else SyntaxError
                          | [] => SyntaxError
                          end
                      | SyntaxError => SyntaxError
                      | OutOfFuel => OutOfFuel
                      end
                    else SyntaxError
                | [] => SyntaxError
                end
            | SyntaxError => SyntaxError
            | OutOfFuel => OutOfFuel
            end
          else SyntaxError
      | [] => SyntaxError
      end
  end.

(** [JSON.parse(text)]; [None] is the SyntaxError it throws. *)
Definition parse (text : jsstring) : option JSValue :=
  match parse_value (2 * List.length text + 2) text with
  | Parsed v rest =>
      match skip_ws rest with
      | [] => Some v
      | _ :: _ => None
      end
  | _ => None
  end.

End JSON.

(** ** The page *)

Module Page.

Inductive Outcome (A : Type) :=
  | Returns (a : A)
  | Throws.

Arguments Returns {A} a.
Arguments Throws {A}.

Inductive Status := idle | verifying | success | failure.

Record User := {
  user_id : Z;
  user_email : jsstring;
  user_name : jsstring
}.

(** A row as the report store returns it. *)
Record StoredReport := {
  stored_id : Z;
  stored_location : jsstring;
  stored_wasteType : jsstring;
  stored_amount : jsstring;
  stored_createdAt : Date.Date
}.

(** An entry of [reports], the recent-reports list. *)
Record Report := {
  report_id : Z;
  report_location : jsstring;
  report_wasteType : jsstring;
  report_amount : jsstring;
  report_createdAt : jsstring
}.

(** [newReport].  Its type and amount are declared strings but receive
    whatever the parsed AI response holds, so they are JavaScript values. *)
Record Draft := {
  location : jsstring;
  type : JSValue;
  amount : JSValue
}.

Record File := {
  file_name : jsstring;
  file_type : jsstring;
  file_bytes : list N
}.

Record PageState := {
  user : option User;
  reports : list Report;
  newReport : Draft;
  file : option File;
  preview : option jsstring;
  verificationStatus : Status;
  verificationResult : option JSValue;
  isSubmitting : bool;
  searchBox : option N
}.

Definition emptyDraft : Draft :=
  {| location := str ""; type := JStr (str ""); amount := JStr (str "") |}.

Definition initialState : PageState :=
  {| user := None; reports := []; newReport := emptyDraft; file := None;
     preview := None; verificationStatus := idle; verificationResult := None;
     isSubmitting := false; searchBox := None |}.

(** The arguments of a [createReport] call. *)
Record CreateReportArgs := {
  arg_userId : Z;
  arg_location : jsstring;
  arg_type : JSValue;
  arg_amount : JSValue;
  arg_imageUrl : option jsstring;
  arg_verificationResult : option jsstring
}.

(** What the page does: state setters, notices, and calls that leave it. *)
Inductive Effect :=
  | SetUser (u : option User)
  | SetReports (l : list Report)
  | SetNewReport (d : Draft)
  | SetFile (f : option File)
  | SetPreview (p : option jsstring)
  | SetVerificationStatus (st : Status)
  | SetVerificationResult (r : option JSValue)
  | SetIsSubmitting (b : bool)
  | PreventDefault
  | ToastError (msg : string)
  | ToastSuccess (msg : string)
  | ConsoleError (msg : string)
  | RouterPush (path : string)
  | LocalStorageGetItem (key : string)
  | ReadAsDataURL (f : File)
  | GenerateContent (prompt : jsstring) (data : option jsstring)
      (mimeType : jsstring)
  | CreateReport (args : CreateReportArgs)
  | GetUserByEmail (email : jsstring)
  | CreateUser (email : jsstring) (name : string)
  | GetRecentReports.

Definition apply (e : Effect) (s : PageState) : PageState :=
  match e with
  | SetUser u =>
      {| user := u; reports := reports s; newReport := newReport s;
         file := file s; preview := preview s;
         verificationStatus := verificationStatus s;
         verificationResult := verificationResult s;
         isSubmitting := isSubmitting s; searchBox := searchBox s |}
  | SetReports l =>
      {| user := user s; reports := l; newReport := newReport s;
         file := file s; preview := preview s;
         verificationStatus := verificationStatus s;
         verificationResult := verificationResult s;
         isSubmitting := isSubmitting s; searchBox := searchBox s |}
  | SetNewReport d =>
      {| user := user s; reports := reports s; newReport := d;
         file := file s; preview := preview s;
         verificationStatus := verificationStatus s;
         verificationResult := verificationResult s;
         isSubmitting := isSubmitting s; searchBox := searchBox s |}
  | SetFile f =>
      {| user := user s; reports := reports s; newReport := newReport s;
         file := f; preview := preview s;
         verificationStatus := verificationStatus s;
         verificationResult := verificationResult s;
         isSubmitting := isSubmitting s; searchBox := searchBox s |}
  | SetPreview p =>
      {| user := user s; reports := reports s; newReport := newReport s;
         file := file s; preview := p;
         verificationStatus := verificationStatus s;
         verificationResult := verificationResult s;
         isSubmitting := isSubmitting s; searchBox := searchBox s |}
  | SetVerificationStatus st =>
      {| user := user s; reports := reports s; newReport := newReport s;
         file := file s; preview := preview s;
         verificationStatus := st;
         verificationResult := verificationResult s;
         isSubmitting := isSubmitting s; searchBox := searchBox s |}
  | SetVerificationResult r =>
      {| user := user s; reports := reports s; newReport := newReport s;
         file := file s; preview := preview s;
         verificationStatus := verificationStatus s;
         verificationResult := r;
         isSubmitting := isSubmitting s; searchBox := searchBox s |}
  | SetIsSubmitting b =>
      {| user := user s; reports := reports s; newReport := newReport s;
         file := file s; preview := preview s;
         verificationStatus := verificationStatus s;
         verificationResult := verificationResult s;
         isSubmitting := b; searchBox := searchBox s |}
  | _ => s
  end.

(** The page state once the effects of a handler have been applied. *)
Definition run (effects : list Effect) (s : PageState) : PageState :=
  fold_left (fun st e => apply e st) effects s.

(** Calls to the user and report stores of [@/utils/db/actions]. *)
Definition is_store_call (e : Effect) : bool :=
  match e with
  | CreateReport _ | GetUserByEmail _ | CreateUser _ _ | GetRecentReports =>
      true
  | _ => false
  end.

(** Calls that leave the page: the stores, the AI endpoint, the router. *)
Definition is_io (e : Effect) : bool :=
  match e with
  | GenerateContent _ _ _ | RouterPush _ => true
  | _ => is_store_call e
  end.

Definition is_createReport (e : Effect) : bool :=
  match e with
  | CreateReport _ => true
  | _ => false
  end.

(** The collaborators of the page.  [createReport], [getUserByEmail],
    [createUser] and [getRecentReports] are the actions of
    [@/utils/db/actions]; [generateContent] stands for the whole exchange
    with the model, from [getGenerativeModel] to [response.text()];
    [stringify] is [JSON.stringify]. *)
Record World := {
  readAsDataURL : File -> Outcome jsstring;
  generateContent : jsstring -> option jsstring -> jsstring -> Outcome jsstring;
  createReport : CreateReportArgs -> Outcome (option StoredReport);
  getUserByEmail : jsstring -> Outcome (option User);
  createUser : jsstring -> jsstring -> Outcome (option User);
  getRecentReports : Outcome (list StoredReport);
  localStorage_getItem : jsstring -> option jsstring;
  stringify : JSValue -> jsstring
}.

Definition nl : jsstring := [10%N].

Definition prompt : jsstring :=
  str "You are an expert in waste management and recycling. Analyze this image and provide:" ++ nl
  ++ str "        1. The type of waste (e.g., plastic, paper, glass, metal, organic)" ++ nl
  ++ str "        2. An estimate of the quantity or amount (in kg or liters)" ++ nl
  ++ str "        3. Your confidence level in this assessment (as a percentage)" ++ nl
  ++ str "        " ++ nl
  ++ str "        Respond in JSON format like this:" ++ nl
  ++ str "        {" ++ nl
  ++ str "          " ++ quoted "wasteType" ++ str ": " ++ quoted "type of waste" ++ str "," ++ nl
  ++ str "          " ++ quoted "quantity" ++ str ": " ++ quoted "estimated quantity with unit" ++ str "," ++ nl
  ++ str "          " ++ quoted "confidence" ++ str ": confidence level as a number between 0 and 1" ++ nl
  ++ str "        }".

(** [createdAt.toISOString().split("T")[0]] *)
Definition formatCreatedAt (createdAt : Date.Date) : option jsstring :=
  match Date.toISOString createdAt with
  | Some iso => Some (hd [] (split 84 iso))
  | None => None
  end.

Definition formatReport (report : StoredReport) : option Report :=
  match formatCreatedAt (stored_createdAt report) with
  | Some day =>
      Some {| report_id := stored_id report;
              report_location := stored_location report;
              report_wasteType := stored_wasteType report;
              report_amount := stored_amount report;
              report_createdAt := day |}
  | None => None
  end.

(** [recentReports.map(...)]: an element that throws ends the whole map. *)
Fixpoint formatReports (l : list StoredReport) : option (list Report) :=
  match l with
  | [] => Some []
  | r :: rest =>
      match formatReport r with
      | Some r' =>
          match formatReports rest with
          | Some rest' => Some (r' :: rest')
          | None => None
          end
      | None => None
      end
  end.

(** The fields a verification result must carry. *)
Definition requiredFields : list jsstring :=
  [str "wasteType"; str "quantity"; str "confidence"].

(** The parsed value [v] fails the test of [handleVerify] on the field [k]:
    reading it throws ([v] is null), or what is read is falsy -- undefined
    for a field that is absent, or a field that is present and is 0, -0,
    the empty string, null or false. *)
Definition missing (v : JSValue) (k : jsstring) : Prop :=
  match prop v k with
  | Some x => truthy x = false
  | None => True
  end.

Section Handlers.

Variable world : World.

(** [files] is [e.target.files]: null or a list of files. *)
Definition handleFileChange (files : option (list File)) : list Effect :=
  match files with
  | Some (selectedFile :: _) =>
      SetFile (Some selectedFile) :: ReadAsDataURL selectedFile ::
      match readAsDataURL world selectedFile with
      | Returns result => [SetPreview (Some result)]
      | Throws => []
      end
  | _ => []
  end.

Definition verifyFailed (msg : string) : list Effect :=
  [ConsoleError msg; SetVerificationStatus failure].

(** The inner [try] of [handleVerify]: parse the text, test the three
    fields, store the result.  The three property reads throw together or
    not at all: [prop] fails on null and undefined only, whatever the name. *)
Definition verifyResponse (s : PageState) (text : jsstring) : list Effect :=
  match JSON.parse text with
  | None => verifyFailed "Failed to parse JSON response:"
  | Some parsedResult =>
      match prop parsedResult (str "wasteType"),
            prop parsedResult (str "quantity"),
            prop parsedResult (str "confidence") with
      | Some wasteType, Some quantity, Some confidence =>
          if truthy wasteType && truthy quantity && truthy confidence
          then
            [SetVerificationResult (Some parsedResult);
             SetVerificationStatus success;
             SetNewReport
               {| location := location (newReport s);
                  type := wasteType;
                  amount := quantity |}]
          else verifyFailed "Invalid verification result:"
      | _, _, _ => verifyFailed "Failed to parse JSON response:"
      end
  end.

Definition handleVerify (s : PageState) : list Effect :=
  match file s with
  | None => []
  | Some f =>
      SetVerificationStatus verifying :: ReadAsDataURL f ::
      match readAsDataURL world f with
      | Throws => verifyFailed "Error verifying waste:"
      | Returns base64Data =>
          let data := nth_error (split 44 base64Data) 1 in
          GenerateContent prompt data (file_type f) ::
          match generateContent world prompt data (file_type f) with
          | Throws => verifyFailed "Error verifying waste:"
          | Returns text => verifyResponse s text
          end
      end
  end.

(** What the exchange with the model yields for the file [f]: the text of
    the response, or an exception on the way to it. *)
Definition modelResponse (f : File) : Outcome jsstring :=
  match readAsDataURL world f with
  | Throws => Throws
  | Returns base64Data =>
      generateContent world prompt (nth_error (split 44 base64Data) 1)
        (file_type f)
  end.

Definition submitArgs (u : User) (s : PageState) : CreateReportArgs :=
  {| arg_userId := user_id u;
     arg_location := location (newReport s);
     arg_type := type (newReport s);
     arg_amount := amount (newReport s);
     arg_imageUrl :=
       match preview s with
       | Some (c :: p) => Some (c :: p)
       | _ => None
       end;
     arg_verificationResult :=
       match verificationResult s with
       | Some r => if truthy r then Some (stringify world r) else None
       | None => None
       end |}.

Definition submitFailed : list Effect :=
  [ConsoleError "Error submitting report:";
   ToastError "Failed to submit report. Please try again."].

Definition handleSubmit (s : PageState) : list Effect :=
  PreventDefault ::
  match verificationStatus s, user s with
  | success, Some u =>
      SetIsSubmitting true :: CreateReport (submitArgs u s) ::
      match createReport world (submitArgs u s) with
      | Returns (Some report) =>
          match formatReport report with
          | Some formattedReport =>
              [SetReports (formattedReport :: reports s);
               SetNewReport emptyDraft;
               SetFile None;
               SetPreview None;
               SetVerificationStatus idle;
               SetVerificationResult None;
               ToastSuccess "Report submitted successfully! You've earned points for reporting waste."]
          | None => submitFailed
          end
      | Returns None => submitFailed
      | Throws => submitFailed
      end ++ [SetIsSubmitting false]
  | _, _ => [ToastError "Please verify the waste before submitting or log in."]
  end.

(** The rest of [checkUser] once the user is resolved. *)
Definition loadReports (u : option User) : list Effect :=
  SetUser u :: GetRecentReports ::
  match getRecentReports world with
  | Returns recentReports =>
      match formatReports recentReports with
      | Some formattedReports => [SetReports formattedReports]
      | None => []
      end
  | Throws => []
  end.

(** The mount effect.  Nothing catches what its calls throw: the effect
    just ends there. *)
Definition checkUser : list Effect :=
  LocalStorageGetItem "userEmail" ::
  match localStorage_getItem world (str "userEmail") with
  | Some (c :: e) =>
      let email := c :: e in
      GetUserByEmail email ::
      match getUserByEmail world email with
      | Returns (Some u) => loadReports (Some u)
      | Returns None =>
          CreateUser email "Anonymous User" ::
          match createUser world email (str "Anonymous User") with
          | Returns u => loadReports u
          | Throws => []
          end
      | Throws => []
      end
  | _ => [RouterPush "/login"]
  end.

End Handlers.

End Page.

Import Page.

(** ** Sample data *)

Module Samples.

Definition wasteFile : File :=
  {| file_name := str "waste.png";
     file_type := str "image/png";
     file_bytes := [137; 80; 78; 71]%N |}.

Definition dataURL : jsstring := str "data:image/png;base64,iVBORw==".

Definition alice : User :=
  {| user_id := 7; user_email := str "alice@example.org";
     user_name := str "Alice" |}.

Definition storedRow : StoredReport :=
  {| stored_id := 42;
     stored_location := str "Main Street 1";
     stored_wasteType := str "plastic";
     stored_amount := str "2kg";
     stored_createdAt := Date.TimeValue 1234567890000 |}.

(** A world that answers the model call with [ai], [createReport] with
    [stored] and the local storage read with [email]; it knows no user. *)
Definition world (ai : Outcome jsstring)
  (stored : Outcome (option StoredReport)) (email : option jsstring)
  : World :=
  {| readAsDataURL := fun _ => Returns dataURL;
     generateContent := fun _ _ _ => ai;
     createReport := fun _ => stored;
     getUserByEmail := fun _ => Returns None;
     createUser := fun e n =>
       Returns (Some {| user_id := 1; user_email := e; user_name := n |});
     getRecentReports := Returns [storedRow];
     localStorage_getItem := fun _ => email;
     stringify := fun _ => str "{}" |}.

(** The response of the specification's example. *)
Definition plasticText : jsstring :=
  str "{" ++ quoted "wasteType" ++ str ":" ++ quoted "plastic" ++ str ","
  ++ quoted "quantity" ++ str ":" ++ quoted "2kg" ++ str ","
  ++ quoted "confidence" ++ str ":0.87}".

Definition plasticResult : JSValue :=
  JObj [(str "wasteType", JStr (str "plastic"));
        (str "quantity", JStr (str "2kg"));
        (str "confidence", JNum (S754_finite false 7836263351624663 (-53)))].

(** The same response with another confidence literal. *)
Definition textWithConfidence (confidence : jsstring) : jsstring :=
  str "{" ++ quoted "wasteType" ++ str ":" ++ quoted "plastic" ++ str ","
  ++ quoted "quantity" ++ str ":" ++ quoted "2kg" ++ str ","
  ++ quoted "confidence" ++ str ":" ++ confidence ++ str "}".

Definition missingFieldsText : jsstring :=
  str "{" ++ quoted "wasteType" ++ str ":" ++ quoted "plastic" ++ str "}".

(** A page on which a photo was verified before. *)
Definition verifiedState : PageState :=
  {| user := Some alice;
     reports := [];
     newReport :=
       {| location := str "Main Street 1";
          type := JStr (str "plastic");
          amount := JStr (str "2kg") |};
     file := Some wasteFile;
     preview := Some dataURL;
     verificationStatus := success;
     verificationResult := Some plasticResult;
     isSubmitting := false;
     searchBox := None |}.

(** A page with a photo selected and nothing verified yet. *)
Definition pickedState : PageState :=
  {| user := Some alice;
     reports := [];
     newReport :=
       {| location := str "Main Street 1";
          type := JStr (str "");
          amount := JStr (str "") |};
     file := Some wasteFile;
     preview := Some dataURL;
     verificationStatus := idle;
     verificationResult := None;
     isSubmitting := false;
     searchBox := None |}.

End Samples.

(** ** The form widgets, two JSX conditions and the task pool *)

Module Form.

(** The inputs that carry [handleInputChange], by their [name]. *)
Inductive Field := LocationField | TypeField | AmountField.

Definition fieldName (f : Field) : jsstring :=
  match f with
  | LocationField => str "location"
  | TypeField => str "type"
  | AmountField => str "amount"
  end.

(** A place of the search box; [formatted_address] is optional. *)
Record Place := { formatted_address : option jsstring }.

(** The effects of the whole page: those of [Page], the functional form
    [setNewReport(prev => ...)] and [setSearchBox]. *)
Inductive Update :=
  | Do (e : Effect)
  | UpdateNewReport (f : Draft -> Draft)
  | SetSearchBox (ref : option N).

Definition applyUpdate (u : Update) (s : PageState) : PageState :=
  match u with
  | Do e => apply e s
  | UpdateNewReport f => apply (SetNewReport (f (newReport s))) s
  | SetSearchBox ref =>
      {| user := user s; reports := reports s; newReport := newReport s;
         file := file s; preview := preview s;
         verificationStatus := verificationStatus s;
         verificationResult := verificationResult s;
         isSubmitting := isSubmitting s; searchBox := ref |}
  end.

Definition runUpdates (updates : list Update) (s : PageState) : PageState :=
  fold_left (fun st u => applyUpdate u st) updates s.

Definition onLoad (ref : N) : list Update := [SetSearchBox (Some ref)].

(** [places] is what [searchBox.getPlaces()] answers: null or a list. *)
Definition onPlacesChanged (s : PageState) (places : option (list Place))
  : list Update :=
  match searchBox s with
  | Some _ =>
      match places with
      | Some (place :: _) =>
          [UpdateNewReport
             (fun prev =>
                {| location :=
                     match formatted_address place with
                     | Some (c :: a) => c :: a
                     | _ => str ""
                     end;
                   type := type prev;
                   amount := amount prev |})]
      | _ => []
      end
  | None => []
  end.

(** [setNewReport({ ...newReport, [name]: value })], [newReport] being the
    draft of the render the handler belongs to. *)
Definition handleInputChange (s : PageState) (name : Field) (value : jsstring)
  : list Update :=
  [Do (SetNewReport
         match name with
         | LocationField =>
             {| location := value;
                type := type (newReport s);
                amount := amount (newReport s) |}
         | TypeField =>
             {| location := location (newReport s);
                type := JStr value;
                amount := amount (newReport s) |}
         | AmountField =>
             {| location := location (newReport s);
                type := type (newReport s);
                amount := JStr value |}
         end)].

(** The calls to the model among the effects. *)
Definition is_modelCall (e : Effect) : bool :=
  match e with
  | GenerateContent _ _ _ => true
  | _ => false
  end.

(** *** Two conditions of the JSX *)



(** *** Handlers as tasks *)

Inductive Event :=
  | Mount
  | SearchBoxLoaded (ref : N)
  | PlacesChanged (places : option (list Place))
  | InputChange (name : Field) (value : jsstring)
  | FileChange (files : option (list File))
  | VerifyClick
  | SubmitForm.

(** The effects of the handler of [ev], created by the render of [s]. *)
Definition handler (w : World) (ev : Event) (s : PageState) : list Update :=
  match ev with
  | Mount => map Do (checkUser w)
  | SearchBoxLoaded ref => onLoad ref
  | PlacesChanged places => onPlacesChanged s places
  | InputChange name value => handleInputChange s name value
  | FileChange files => map Do (handleFileChange w files)
  | VerifyClick => map Do (handleVerify w s)
  | SubmitForm => map Do (handleSubmit w s)
  end.

(** The calls a handler awaits (or whose callback it leaves to the file
    reader): what follows them runs later, in a turn of its own. *)
Definition suspends (u : Update) : bool :=
  match u with
  | Do (ReadAsDataURL _) | Do (GenerateContent _ _ _) | Do (CreateReport _)
  | Do (GetUserByEmail _) | Do (CreateUser _ _) | Do GetRecentReports => true
  | _ => false
  end.

(** The effects of a handler, cut after each call it suspends on. *)
Fixpoint segments (task : list Update) : list (list Update) :=
  match task with
  | [] => []
  | u :: rest =>
      if suspends u then [u] :: segments rest
      else match segments rest with
           | [] => [[u]]
           | seg :: more => (u :: seg) :: more
           end
  end.

(** The page and the handlers in flight, each with the segments it has
    yet to run. *)
Record Config := {
  page : PageState;
  pending : list (list (list Update))
}.

Definition initialConfig : Config :=
  {| page := initialState; pending := [] |}.

(** One turn of the event loop: an event starts its handler, which runs
    to its first suspension, or a handler in flight runs its next segment.
    Each start may meet another answer of the outside world. *)
Inductive step : Config -> Config -> Prop :=
  | step_start (w : World) (ev : Event) (c : Config) :
      step c
        match segments (handler w ev (page c)) with
        | [] => c
        | seg :: rest =>
            {| page := runUpdates seg (page c);
               pending := rest :: pending c |}
        end
  | step_resume (c : Config) (before after : list (list (list Update)))
      (seg : list Update) (rest : list (list Update)) :
      pending c = before ++ (seg :: rest) :: after ->
      step c {| page := runUpdates seg (page c);
                pending := before ++ rest :: after |}.

Inductive reachable : Config -> Prop :=
  | reachable_initial : reachable initialConfig
  | reachable_step (c c' : Config) :
      reachable c -> step c c' -> reachable c'.

(** A stored verification result that passes the test of [handleVerify]. *)
Definition validResult (r : option JSValue) : Prop :=
  exists v a b c,
    r = Some v
    /\ prop v (str "wasteType") = Some a
    /\ prop v (str "quantity") = Some b
    /\ prop v (str "confidence") = Some c
    /\ truthy a = true /\ truthy b = true /\ truthy c = true.

(** The status and the stored result agree. *)
Definition coherent (s : PageState) : Prop :=
  (verificationStatus s = idle -> verificationResult s = None)
  /\ (verificationStatus s = success -> validResult (verificationResult s)).

(** A segment that keeps the status and the stored result coherent. *)
Definition preserves (seg : list Update) : Prop :=
  forall s, coherent s -> coherent (runUpdates seg s).

(** Sample data. *)
Definition townHall : Place :=
  {| formatted_address := Some (str "1 Town Hall Square") |}.

Definition otherFile : File :=
  {| file_name := str "garden.jpg";
     file_type := str "image/jpeg";
     file_bytes := [255; 216; 255]%N |}.

Definition withSearchBox (s : PageState) : PageState :=
  runUpdates (onLoad 1%N) s.

(** Start the handler of [ev]; run the next segment of the handler started
    last. *)
Definition start (w : World) (ev : Event) (c : Config) : Config :=
  match segments (handler w ev (page c)) with
  | [] => c
  | seg :: rest =>
      {| page := runUpdates seg (page c); pending := rest :: pending c |}
  end.

Definition resume (c : Config) : Config :=
  match pending c with
  | (seg :: rest) :: after =>
      {| page := runUpdates seg (page c); pending := rest :: after |}
  | _ => c
  end.

(** A visit: the page mounts for a new user, who picks a photo and has it
    verified. *)
Definition visitWorld : World :=
  Samples.world (Returns Samples.plasticText)
    (Returns (Some Samples.storedRow)) (Some (str "bob@example.org")).

Definition visit : Config :=
  resume (resume (start visitWorld VerifyClick
    (resume (start visitWorld (FileChange (Some [Samples.wasteFile]))
      (resume (resume (resume (start visitWorld Mount initialConfig)))))))).

End Form.

Import Form.

(** * Properties *)

(** ** Runtime lemmas *)

Lemma split_head (sep : N) (a b : jsstring) :
  Forall (fun c => c <> sep) a ->
  hd [] (split sep (a ++ sep :: b)) = a.
Proof.
  induction 1 as [|c a Hc Ha IH]; simpl.
  - now rewrite N.eqb_refl.
  - destruct (N.eqb_spec c sep) as [E|_]; [contradiction|].
    destruct (split sep (a ++ sep :: b)) as [|h t] eqn:E.
    + destruct a; simpl in E; [rewrite N.eqb_refl in E; discriminate|].
      destruct (N.eqb n sep); [discriminate|].
      destruct (split sep (a ++ sep :: b)); discriminate.
    + simpl in IH. now subst h.
Qed.

Lemma digits_are_digits (w : nat) (n : Z) :
  Forall (fun c => (48 <= c <= 57)%N) (Date.digits w n).
Proof.
  revert n; induction w as [|w IH]; intros n; cbn [Date.digits];
    [constructor|].
  apply Forall_app; split; [apply IH|].
  constructor; [|constructor].
  pose proof (Z.mod_pos_bound n 10 ltac:(lia)). lia.
Qed.

Lemma dayString_no_T (ms : Z) :
  Forall (fun c => c <> 84%N) (Date.dayString ms).
Proof.
  assert (D : forall w n, Forall (fun c => c <> 84%N) (Date.digits w n)).
  { intros w n. eapply Forall_impl; [|apply digits_are_digits].
    simpl; intros c Hc; lia. }
  assert (M : Forall (fun c => c <> 84%N) (str "-")).
  { repeat constructor; discriminate. }
  unfold Date.dayString.
  destruct (Date.civil (ms / Date.msPerDay)) as [[y m] d].
  assert (Y : Forall (fun c => c <> 84%N) (Date.yearString y)).
  { unfold Date.yearString.
    destruct ((0 <=? y) && (y <=? 9999)); [apply D|].
    destruct (y <? 0); apply Forall_app; split; auto;
      repeat constructor; discriminate. }
  apply Forall_app; split; [exact Y|].
  apply Forall_app; split; [exact M|].
  apply Forall_app; split; [apply D|].
  apply Forall_app; split; [exact M|apply D].
Qed.

(** The day part of an ISO timestamp is what [split("T")[0]] keeps. *)
Lemma formatCreatedAt_day (ms : Z) :
  - Date.maxTime <= ms <= Date.maxTime ->
  formatCreatedAt (Date.TimeValue ms) = Some (Date.dayString ms).
Proof.
  intros [Hlo Hhi]. unfold formatCreatedAt, Date.toISOString.
  apply Z.leb_le in Hlo, Hhi. rewrite Hlo, Hhi. simpl andb. cbv iota.
  f_equal. change (str "T" ++ Date.timeString ms ++ str "Z")
    with (84%N :: Date.timeString ms ++ str "Z").
  apply split_head, dayString_no_T.
Qed.

Lemma formatCreatedAt_invalid : formatCreatedAt Date.Invalid = None.
Proof. reflexivity. Qed.

Lemma run_app (a b : list Effect) (s : PageState) :
  run (a ++ b) s = run b (run a s).
Proof. apply fold_left_app. Qed.

(** [toISOString] on known instants. *)

Example toISOString_epoch :
  Date.toISOString (Date.TimeValue 0) = Some (str "1970-01-01T00:00:00.000Z").
Proof. reflexivity. Qed.

Example toISOString_2009 :
  Date.toISOString (Date.TimeValue 1234567890000)
  = Some (str "2009-02-13T23:31:30.000Z").
Proof. reflexivity. Qed.

Example toISOString_2001 :
  Date.toISOString (Date.TimeValue 1000000000000)
  = Some (str "2001-09-09T01:46:40.000Z").
Proof. reflexivity. Qed.

Example toISOString_leap :
  Date.toISOString (Date.TimeValue 951782400000)
  = Some (str "2000-02-29T00:00:00.000Z").
Proof. reflexivity. Qed.

Example toISOString_before_epoch :
  Date.toISOString (Date.TimeValue (-1))
  = Some (str "1969-12-31T23:59:59.999Z").
Proof. reflexivity. Qed.

Example toISOString_year_zero :
  Date.toISOString (Date.TimeValue (-62167219200000))
  = Some (str "0000-01-01T00:00:00.000Z").
Proof. reflexivity. Qed.

Example toISOString_negative_year :
  Date.toISOString (Date.TimeValue (-62167219200001))
  = Some (str "-000001-12-31T23:59:59.999Z").
Proof. reflexivity. Qed.

Example toISOString_max :
  Date.toISOString (Date.TimeValue 8640000000000000)
  = Some (str "+275760-09-13T00:00:00.000Z").
Proof. reflexivity. Qed.

Example split_iso :
  split 84 (str "2009-02-13T23:31:30.000Z")
  = [str "2009-02-13"; str "23:31:30.000Z"].
Proof. reflexivity. Qed.

(** ** JSON.parse never runs out of fuel *)

Lemma skip_ws_length (s : jsstring) :
  (List.length (JSON.skip_ws s) <= List.length s)%nat.
Proof.
  induction s as [|c s IH]; simpl; [lia|].
  destruct (JSON.is_ws c); simpl; lia.
Qed.

Lemma skip_ws_cons (s : jsstring) (c : N) (rest : jsstring) :
  JSON.skip_ws s = c :: rest -> (List.length rest < List.length s)%nat.
Proof.
  intros H. pose proof (skip_ws_length s) as L. rewrite H in L. simpl in L. lia.
Qed.

Lemma scan_digits_length (s : jsstring) (acc len : Z) v l r :
  JSON.scan_digits s acc len = (v, l, r) ->
  (List.length r <= List.length s)%nat.
Proof.
  revert acc len; induction s as [|c s IH]; simpl; intros acc len H.
  - injection H as _ _ <-. simpl; lia.
  - destruct (JSON.is_digit c).
    + apply IH in H. lia.
    + injection H as _ _ <-. simpl; lia.
Qed.

Ltac break_match H :=
  repeat match type of H with
         | context [match ?x with _ => _ end] => destruct x eqn:?
         end.

Lemma parse_chars_shorter (n : nat) :
  forall s acc, (List.length s <= n)%nat ->
    JSON.parse_chars s acc <> JSON.OutOfFuel
    /\ forall k r, JSON.parse_chars s acc = JSON.Parsed k r ->
         (List.length r < List.length s)%nat.
Proof.
  induction n as [|n IH]; intros s acc L.
  - destruct s; [|simpl in L; lia]. simpl. split; [discriminate|discriminate].
  - destruct s as [|c rest]; [simpl; split; discriminate|].
    simpl in L.
    assert (R : forall t acc', (List.length t <= List.length rest)%nat ->
              JSON.parse_chars t acc' <> JSON.OutOfFuel
              /\ forall k r, JSON.parse_chars t acc' = JSON.Parsed k r ->
                   (List.length r < S (List.length t))%nat).
    { intros t acc' Lt. destruct (IH t acc' ltac:(lia)) as [A B].
      split; [exact A|]. intros k r H. apply B in H. lia. }
    simpl.
    destruct (N.eqb c 34); [split; [discriminate|]; intros k r H;
                            injection H as _ <-; simpl; lia|].
    destruct (N.eqb c 92).
    + destruct rest as [|e rest']; [split; discriminate|].
      assert (R1 : forall acc',
                JSON.parse_chars rest' acc' <> JSON.OutOfFuel
                /\ forall k r, JSON.parse_chars rest' acc' = JSON.Parsed k r ->
                     (List.length r < S (S (List.length rest')))%nat).
      { intros acc'. destruct (R rest' acc' ltac:(simpl; lia)) as [A B].
        split; [exact A|]. intros k r H. apply B in H. lia. }
      simpl List.length.
      repeat match goal with
             | |- context [if N.eqb e ?x then _ else _] =>
                 destruct (N.eqb e x); [apply R1|]
             end.
      destruct (N.eqb e 117); [|split; discriminate].
      destruct rest' as [|h1 [|h2 [|h3 [|h4 rest'']]]]; try (split; discriminate).
      destruct (JSON.hex_value h1), (JSON.hex_value h2), (JSON.hex_value h3),
        (JSON.hex_value h4); try (split; discriminate).
      match goal with
      | |- JSON.parse_chars rest'' ?a <> _ /\ _ =>
          destruct (R rest'' a ltac:(simpl; lia)) as [A B]
      end.
      split; [exact A|]. intros k r H. apply B in H. simpl. lia.
    + destruct (N.ltb c 32); [split; discriminate|].
      apply R. lia.
Qed.

Lemma parse_chars_total (s acc : jsstring) :
  JSON.parse_chars s acc <> JSON.OutOfFuel.
Proof. exact (proj1 (parse_chars_shorter (List.length s) s acc (le_n _))). Qed.

Lemma parse_chars_consumes (s acc k r : jsstring) :
  JSON.parse_chars s acc = JSON.Parsed k r ->
  (List.length r < List.length s)%nat.
Proof. exact (proj2 (parse_chars_shorter (List.length s) s acc (le_n _)) k r). Qed.

Lemma parse_number_consumes (neg : bool) (s : jsstring) :
  JSON.parse_number neg s <> JSON.OutOfFuel
  /\ forall v r, JSON.parse_number neg s = JSON.Parsed v r ->
       (List.length r < List.length s)%nat.
Proof.
  unfold JSON.parse_number.
  destruct s as [|c rest]; [split; discriminate|].
  destruct (JSON.is_digit c) eqn:D; [|split; discriminate].
  assert (I : forall i s1,
             (if N.eqb c 48 then (0, rest)
              else let '(v, _, r) := JSON.scan_digits (c :: rest) 0 0 in (v, r))
             = (i, s1) -> (List.length s1 <= List.length rest)%nat).
  { intros i s1 H. destruct (N.eqb c 48).
    - injection H as _ <-. lia.
    - cbn [JSON.scan_digits] in H. rewrite D in H.
      match type of H with
      | context [JSON.scan_digits rest ?a ?b] =>
          destruct (JSON.scan_digits rest a b) as [[v l] r] eqn:E
      end.
      injection H as _ <-. eapply scan_digits_length; eauto. }
  destruct (if N.eqb c 48 then (0, rest)
            else let '(v, _, r) := JSON.scan_digits (c :: rest) 0 0 in (v, r))
    as [i s1] eqn:E1.
  specialize (I i s1 eq_refl). simpl List.length.
  split.
  - intros H. break_match H; discriminate.
  - intros v r H. clear E1 D.
    repeat match goal with
           | H : context [match ?x with _ => _ end] |- _ => destruct x eqn:?
           end;
      try discriminate;
      injection H as _ <-; subst;
      repeat match goal with
             | E : JSON.scan_digits _ _ _ = (_, _, _) |- _ =>
                 apply scan_digits_length in E
             | E : Some _ = Some _ |- _ => inversion E; clear E; subst
             | E : (_, _) = (_, _) |- _ => inversion E; clear E; subst
             | E : None = Some _ |- _ => discriminate E
             end;
      simpl in *; lia.
Qed.

Lemma strip_prefix_length (p s r : jsstring) :
  JSON.strip_prefix p s = Some r ->
  (List.length r + List.length p = List.length s)%nat.
Proof.
  revert s; induction p as [|a p IH]; intros [|b s] H; simpl in *;
    try discriminate.
  - injection H as <-. simpl; lia.
  - injection H as <-. simpl; lia.
  - destruct (N.eqb a b); [|discriminate]. apply IH in H. lia.
Qed.

Lemma literal_consumes (word : string) (v : JSValue) (s : jsstring) :
  (0 < List.length (str word))%nat ->
  JSON.literal word v s <> JSON.OutOfFuel
  /\ forall v' r, JSON.literal word v s = JSON.Parsed v' r ->
       (List.length r < List.length s)%nat.
Proof.
  intros W. unfold JSON.literal.
  destruct (JSON.strip_prefix (str word) s) as [rest|] eqn:E;
    split; try discriminate.
  intros v' r H. injection H as _ <-. apply strip_prefix_length in E. lia.
Qed.

Ltac consumed IHv IHe IHm :=
  repeat match goal with
         | H : JSON.parse_value _ ?s = JSON.OutOfFuel |- _ =>
             apply (proj1 (IHv s)) in H
         | H : JSON.parse_value _ ?s = JSON.Parsed _ _ |- _ =>
             apply (proj2 (IHv s)) in H
         | H : JSON.parse_elements _ ?a ?s = JSON.OutOfFuel |- _ =>
             apply (proj1 (IHe a s)) in H
         | H : JSON.parse_elements _ ?a ?s = JSON.Parsed _ _ |- _ =>
             apply (proj2 (IHe a s)) in H
         | H : JSON.parse_members _ ?a ?s = JSON.OutOfFuel |- _ =>
             apply (proj1 (IHm a s)) in H
         | H : JSON.parse_members _ ?a ?s = JSON.Parsed _ _ |- _ =>
             apply (proj2 (IHm a s)) in H
         | H : JSON.skip_ws _ = _ :: _ |- _ => apply skip_ws_cons in H
         | H : JSON.parse_chars _ _ = JSON.Parsed _ _ |- _ =>
             apply parse_chars_consumes in H
         | H : JSON.parse_chars _ _ = JSON.OutOfFuel |- _ =>
             destruct (parse_chars_total _ _ H)
         | H : JSON.parse_number _ _ = JSON.Parsed _ _ |- _ =>
             apply (proj2 (parse_number_consumes _ _)) in H
         | H : JSON.parse_number _ _ = JSON.OutOfFuel |- _ =>
             destruct (proj1 (parse_number_consumes _ _) H)
         | H : JSON.literal ?w ?v ?s = JSON.Parsed _ _ |- _ =>
             apply (proj2 (literal_consumes w v s ltac:(vm_compute; lia))) in H
         | H : JSON.literal ?w ?v ?s = JSON.OutOfFuel |- _ =>
             destruct (proj1 (literal_consumes w v s ltac:(vm_compute; lia)) H)
         | H : JSON.Parsed _ _ = JSON.Parsed _ _ |- _ =>
             inversion H; clear H; subst
         end.

(** With fuel [n], running out of fuel means the text is at least about
    [n / 2] long, and a parsed value has consumed something. *)
Lemma parse_fuel (n : nat) :
  (forall s,
      (JSON.parse_value n s = JSON.OutOfFuel -> n <= 2 * List.length s)%nat
      /\ forall v r, JSON.parse_value n s = JSON.Parsed v r ->
           (List.length r < List.length s)%nat)
  /\ (forall acc s,
        (JSON.parse_elements n acc s = JSON.OutOfFuel ->
         n <= 2 * List.length s + 1)%nat
        /\ forall v r, JSON.parse_elements n acc s = JSON.Parsed v r ->
             (List.length r < List.length s)%nat)
  /\ (forall acc s,
        (JSON.parse_members n acc s = JSON.OutOfFuel ->
         n <= 2 * List.length s + 1)%nat
        /\ forall v r, JSON.parse_members n acc s = JSON.Parsed v r ->
             (List.length r < List.length s)%nat).
Proof.
  induction n as [|n (IHv & IHe & IHm)].
  - repeat split; simpl; intros; try lia; discriminate.
  - split; [|split].
    + intros s. split; [intros H|intros v r H];
        cbn [JSON.parse_value] in H; break_match H; try discriminate;
        consumed IHv IHe IHm; simpl in *; lia.
    + intros acc s. split; [intros H|intros v r H];
        cbn [JSON.parse_elements] in H; break_match H; try discriminate;
        consumed IHv IHe IHm; simpl in *; lia.
    + intros acc s. split; [intros H|intros v r H];
        cbn [JSON.parse_members] in H; break_match H; try discriminate;
        consumed IHv IHe IHm; simpl in *; lia.
Qed.

(** [JSON.parse] gives its parser enough fuel: a [None] is a syntax error
    (or text after the value), never exhaustion. *)
Theorem parse_value_enough_fuel (text : jsstring) :
  JSON.parse_value (2 * List.length text + 2) text <> JSON.OutOfFuel.
Proof.
  intros H. apply (proj1 (proj1 (parse_fuel _) text)) in H. lia.
Qed.

Example parse_plastic :
  JSON.parse Samples.plasticText = Some Samples.plasticResult.
Proof. vm_compute. reflexivity. Qed.

Example parse_nested :
  JSON.parse (str " [1, 2.5e3 ,true,null, [] , {}] ")
  = Some (JArr [JNum (S754_finite false 4503599627370496 (-52));
                JNum (S754_finite false 5497558138880000 (-41));
                JBool true; JNull; JArr []; JObj []]).
Proof. vm_compute. reflexivity. Qed.

Example parse_rejects :
  map JSON.parse
    [str "I cannot analyze this"; str "01"; str "1."; str ".5"; str "[1,]";
     str "{}x"; str "-"; str "1e"; str "tru"; str ""]
  = [None; None; None; None; None; None; None; None; None; None].
Proof. vm_compute. reflexivity. Qed.

(** Number literals round to the nearest binary64 value; what rounds to
    zero is zero. *)
Example parse_numbers :
  map JSON.parse
    [str "0.1"; str "-0"; str "1e400"; str "5e-324"; str "1e-400";
     str "9007199254740993"]
  = [Some (JNum (S754_finite false 7205759403792794 (-56)));
     Some (JNum (S754_zero true));
     Some (JNum (S754_infinity false));
     Some (JNum (S754_finite false 1 (-1074)));
     Some (JNum (S754_zero false));
     Some (JNum (S754_finite false 4503599627370496 1))].
Proof. vm_compute. reflexivity. Qed.

Example parse_duplicate_key :
  JSON.parse (str "{" ++ quoted "a" ++ str ":1," ++ quoted "b" ++ str ":null,"
              ++ quoted "a" ++ str ":false}")
  = Some (JObj [(str "a", JBool false); (str "b", JNull)]).
Proof. vm_compute. reflexivity. Qed.

Example parse_escapes :
  JSON.parse (dq :: str "a\u00e9\n" ++ [dq])
  = Some (JStr [97; 233; 10]%N).
Proof. vm_compute. reflexivity. Qed.

(** ** Image intake *)

(** C10: a change event whose file list is empty makes [handleFileChange]
    do nothing: it performs no effect, so the selected file, the preview and
    every other piece of page state stay as they were. *)
Theorem handleFileChange_empty_list (w : World) (s : PageState) :
  handleFileChange w (Some []) = []
  /\ run (handleFileChange w (Some [])) s = s.
Proof. split; reflexivity. Qed.

Lemma handleFileChange_null (w : World) (s : PageState) :
  run (handleFileChange w None) s = s.
Proof. reflexivity. Qed.

Lemma handleFileChange_selected (w : World) (s : PageState) f rest url :
  readAsDataURL w f = Returns url ->
  file (run (handleFileChange w (Some (f :: rest))) s) = Some f
  /\ preview (run (handleFileChange w (Some (f :: rest))) s) = Some url.
Proof. intros H. unfold handleFileChange. rewrite H. split; reflexivity. Qed.

(** ** Submission *)

(** C1: [handleSubmit] calls [createReport] exactly when the verification
    status is [success] and a user is resolved; when the status is [idle],
    [verifying] or [failure], or no user is resolved, all it does is show the
    notice: no call leaves the page and the page state is unchanged. *)
Theorem handleSubmit_gate (w : World) (s : PageState) :
  (existsb is_createReport (handleSubmit w s) = true <->
   verificationStatus s = success /\ user s <> None)
  /\ (verificationStatus s = idle \/ verificationStatus s = verifying
      \/ verificationStatus s = failure \/ user s = None ->
      handleSubmit w s
      = [PreventDefault;
         ToastError "Please verify the waste before submitting or log in."]
      /\ existsb is_io (handleSubmit w s) = false
      /\ run (handleSubmit w s) s = s).
Proof.
  unfold handleSubmit.
  destruct (verificationStatus s) eqn:St, (user s) as [u|] eqn:U; simpl;
    (split;
     [ split; [ try discriminate; auto using eq_refl
              | intros [? ?]; try discriminate; try congruence ]
     | intros [H|[H|[H|H]]]; try discriminate; auto ]).
  split; [reflexivity|discriminate].
Qed.

Lemma handleSubmit_gate_witness :
  handleSubmit (Samples.world Throws Throws None) Samples.pickedState
  = [PreventDefault;
     ToastError "Please verify the waste before submitting or log in."]
  /\ existsb is_io
       (handleSubmit (Samples.world Throws Throws None) Samples.pickedState)
     = false
  /\ run (handleSubmit (Samples.world Throws Throws None) Samples.pickedState)
       Samples.pickedState = Samples.pickedState.
Proof.
  apply (proj2 (handleSubmit_gate (Samples.world Throws Throws None)
                  Samples.pickedState)).
  left; reflexivity.
Defined.

Lemma handleSubmit_accepted (w : World) (s : PageState) (u : User) :
  verificationStatus s = success ->
  user s = Some u ->
  handleSubmit w s
  = PreventDefault :: SetIsSubmitting true :: CreateReport (submitArgs w u s)
    :: match createReport w (submitArgs w u s) with
       | Returns (Some report) =>
           match formatReport report with
           | Some formattedReport =>
               [SetReports (formattedReport :: reports s);
                SetNewReport emptyDraft;
                SetFile None;
                SetPreview None;
                SetVerificationStatus idle;
                SetVerificationResult None;
                ToastSuccess "Report submitted successfully! You've earned points for reporting waste."]
           | None => submitFailed
           end
       | _ => submitFailed
       end ++ [SetIsSubmitting false].
Proof.
  intros St U. unfold handleSubmit. rewrite St, U.
  destruct (createReport w (submitArgs w u s)) as [[r|]|]; reflexivity.
Qed.

(** C5: after a successful submission the created report, its creation
    time turned into the calendar day YYYY-MM-DD, is the first entry of the
    recent-reports list, and the draft, the selected file, the preview, the
    verification status and the verification result are back at their
    initial values. *)
Theorem handleSubmit_success (w : World) (s : PageState) (u : User)
    (report : StoredReport) (ms : Z) :
  verificationStatus s = success ->
  user s = Some u ->
  createReport w (submitArgs w u s) = Returns (Some report) ->
  stored_createdAt report = Date.TimeValue ms ->
  - Date.maxTime <= ms <= Date.maxTime ->
  let s' := run (handleSubmit w s) s in
  nth_error (reports s') 0
  = Some {| report_id := stored_id report;
            report_location := stored_location report;
            report_wasteType := stored_wasteType report;
            report_amount := stored_amount report;
            report_createdAt := Date.dayString ms |}
  /\ tl (reports s') = reports s
  /\ newReport s' = newReport initialState
  /\ file s' = file initialState
  /\ preview s' = preview initialState
  /\ verificationStatus s' = verificationStatus initialState
  /\ verificationResult s' = verificationResult initialState
  /\ In (ToastSuccess "Report submitted successfully! You've earned points for reporting waste.")
        (handleSubmit w s).
Proof.
  intros St U Hstore Hdate Hrange s'. subst s'.
  rewrite (handleSubmit_accepted w s u St U), Hstore.
  unfold formatReport. rewrite Hdate, (formatCreatedAt_day ms Hrange).
  cbn. repeat split; auto 12.
Qed.

Lemma handleSubmit_success_witness :
  let w := Samples.world Throws (Returns (Some Samples.storedRow)) None in
  let s' := run (handleSubmit w Samples.verifiedState) Samples.verifiedState in
  nth_error (reports s') 0
  = Some {| report_id := 42;
            report_location := str "Main Street 1";
            report_wasteType := str "plastic";
            report_amount := str "2kg";
            report_createdAt := str "2009-02-13" |}
  /\ newReport s' = emptyDraft
  /\ verificationStatus s' = idle.
Proof.
  intros w s'.
  destruct (handleSubmit_success w Samples.verifiedState Samples.alice
              Samples.storedRow 1234567890000 eq_refl eq_refl eq_refl eq_refl
              ltac:(unfold Date.maxTime; lia))
    as (H0 & _ & Hd & _ & _ & Hs & _).
  split; [exact H0|]. split; [exact Hd|exact Hs].
Defined.

(** C6: when the [createReport] call throws, [handleSubmit] leaves the
    draft, the file, the preview, the verification status, the verification
    result and the recent-reports list as they were, shows the generic error
    notice, and calls the store once only; submitting again from the
    resulting state sends the same arguments. *)
Theorem handleSubmit_store_throws (w : World) (s : PageState) (u : User) :
  verificationStatus s = success ->
  user s = Some u ->
  createReport w (submitArgs w u s) = Throws ->
  let s' := run (handleSubmit w s) s in
  newReport s' = newReport s
  /\ file s' = file s
  /\ preview s' = preview s
  /\ verificationStatus s' = verificationStatus s
  /\ verificationResult s' = verificationResult s
  /\ reports s' = reports s
  /\ user s' = user s
  /\ In (ToastError "Failed to submit report. Please try again.")
        (handleSubmit w s)
  /\ filter is_createReport (handleSubmit w s)
     = [CreateReport (submitArgs w u s)]
  /\ filter is_createReport (handleSubmit w s')
     = [CreateReport (submitArgs w u s)].
Proof.
  intros St U Hstore s'.
  assert (E : handleSubmit w s
              = [PreventDefault; SetIsSubmitting true;
                 CreateReport (submitArgs w u s);
                 ConsoleError "Error submitting report:";
                 ToastError "Failed to submit report. Please try again.";
                 SetIsSubmitting false]).
  { rewrite (handleSubmit_accepted w s u St U), Hstore. reflexivity. }
  assert (A : submitArgs w u s' = submitArgs w u s).
  { subst s'. rewrite E. reflexivity. }
  assert (St' : verificationStatus s' = success).
  { subst s'. rewrite E. exact St. }
  assert (U' : user s' = Some u).
  { subst s'. rewrite E. exact U. }
  rewrite (handleSubmit_accepted w s' u St' U'), A, Hstore.
  subst s'. rewrite E. cbn.
  repeat split; auto 8.
Qed.

Lemma handleSubmit_store_throws_witness :
  let w := Samples.world Throws Throws None in
  let s' := run (handleSubmit w Samples.verifiedState) Samples.verifiedState in
  newReport s' = newReport Samples.verifiedState
  /\ verificationStatus s' = success
  /\ reports s' = [].
Proof.
  intros w s'.
  destruct (handleSubmit_store_throws w Samples.verifiedState Samples.alice
              eq_refl eq_refl eq_refl)
    as (Hd & _ & _ & Hs & _ & Hr & _).
  split; [exact Hd|]. split; [exact Hs|exact Hr].
Defined.

(** A store that answers null, or a row without a valid creation date, ends
    in the same error path. *)
Lemma handleSubmit_store_null (w : World) (s : PageState) (u : User) :
  verificationStatus s = success ->
  user s = Some u ->
  createReport w (submitArgs w u s) = Returns None ->
  newReport (run (handleSubmit w s) s) = newReport s
  /\ In (ToastError "Failed to submit report. Please try again.")
        (handleSubmit w s).
Proof.
  intros St U Hstore.
  rewrite (handleSubmit_accepted w s u St U), Hstore. cbn. auto 8.
Qed.

(** ** Verification *)

Lemma handleVerify_no_file (w : World) (s : PageState) :
  file s = None -> handleVerify w s = [].
Proof. intros H. unfold handleVerify. now rewrite H. Qed.

(** A verify attempt first enters [verifying] and suspends on the file
    read. *)
Lemma handleVerify_begins (w : World) (s : PageState) (f : File) :
  file s = Some f ->
  exists rest,
    handleVerify w s = SetVerificationStatus verifying :: ReadAsDataURL f :: rest.
Proof. intros H. unfold handleVerify. rewrite H. eauto. Qed.

Lemma handleVerify_run (w : World) (s : PageState) (f : File) :
  file s = Some f ->
  run (handleVerify w s) s
  = match modelResponse w f with
    | Throws => apply (SetVerificationStatus failure) s
    | Returns text =>
        run (verifyResponse s text) (apply (SetVerificationStatus verifying) s)
    end.
Proof.
  intros H. unfold handleVerify, modelResponse. rewrite H.
  destruct (readAsDataURL w f) as [url|]; [|reflexivity].
  cbv zeta.
  destruct (generateContent w prompt (nth_error (split 44 url) 1) (file_type f));
    reflexivity.
Qed.

Lemma handleVerify_effects (w : World) (s : PageState) (f : File) :
  file s = Some f ->
  forall e, In e (handleVerify w s) ->
    match modelResponse w f with
    | Throws => forall d, e <> SetNewReport d
    | Returns text =>
        In e (verifyResponse s text) \/ forall d, e <> SetNewReport d
    end.
Proof.
  intros H e. unfold handleVerify, modelResponse. rewrite H.
  destruct (readAsDataURL w f) as [url|]; cbv zeta.
  - destruct (generateContent w prompt (nth_error (split 44 url) 1) (file_type f));
      simpl; intuition (subst; try discriminate; auto).
  - simpl; intuition (subst; discriminate).
Qed.

Lemma prop_none (v : JSValue) (k k' : jsstring) :
  prop v k = None -> prop v k' = None.
Proof.
  destruct v; simpl; try discriminate; auto.
  destruct (assoc k fields); discriminate.
Qed.

(** The inner block either stores a result or fails, and tells which. *)
Lemma verifyResponse_cases (s : PageState) (text : jsstring) :
  (exists v a b c,
      JSON.parse text = Some v
      /\ prop v (str "wasteType") = Some a
      /\ prop v (str "quantity") = Some b
      /\ prop v (str "confidence") = Some c
      /\ truthy a = true /\ truthy b = true /\ truthy c = true
      /\ verifyResponse s text
         = [SetVerificationResult (Some v);
            SetVerificationStatus success;
            SetNewReport {| location := location (newReport s);
                            type := a; amount := b |}])
  \/ (exists msg, verifyResponse s text = verifyFailed msg).
Proof.
  unfold verifyResponse.
  destruct (JSON.parse text) as [v|]; [|right; eauto].
  destruct (prop v (str "wasteType")) as [a|] eqn:Ha; [|right; eauto].
  destruct (prop v (str "quantity")) as [b|] eqn:Hb; [|right; eauto].
  destruct (prop v (str "confidence")) as [c|] eqn:Hc; [|right; eauto].
  destruct (truthy a) eqn:Ta; [|right; simpl; eauto].
  destruct (truthy b) eqn:Tb; [|right; simpl; eauto].
  destruct (truthy c) eqn:Tc; [|right; simpl; eauto].
  left. exists v, a, b, c. simpl. auto 10.
Qed.

Lemma verifyResponse_missing (s : PageState) (text : jsstring) (v : JSValue)
    (k : jsstring) :
  JSON.parse text = Some v ->
  In k requiredFields ->
  missing v k ->
  exists msg, verifyResponse s text = verifyFailed msg.
Proof.
  intros P K M. unfold verifyResponse. rewrite P. unfold missing in M.
  destruct (prop v (str "wasteType")) as [a|] eqn:A; [|eauto].
  destruct (prop v (str "quantity")) as [b|] eqn:B; [|eauto].
  destruct (prop v (str "confidence")) as [c|] eqn:C; [|eauto].
  destruct K as [<-|[<-|[<-|[]]]].
  - rewrite A in M. rewrite M. simpl. eauto.
  - rewrite B in M. rewrite M. destruct (truthy a); simpl; eauto.
  - rewrite C in M. rewrite M.
    destruct (truthy a), (truthy b); simpl; eauto.
Qed.

(** An attempt on a response that is not accepted has one of the causes. *)
Lemma verifyResponse_failed_cause (s : PageState) (text : jsstring)
    (msg : string) :
  verifyResponse s text = verifyFailed msg ->
  JSON.parse text = None
  \/ exists v k,
       JSON.parse text = Some v /\ In k requiredFields /\ missing v k.
Proof.
  intros E. destruct (JSON.parse text) as [v|] eqn:P; [|left; reflexivity].
  right. exists v.
  destruct (prop v (str "wasteType")) as [a|] eqn:A;
    [|exists (str "wasteType"); unfold missing; rewrite A; simpl; auto].
  destruct (truthy a) eqn:Ta;
    [|exists (str "wasteType"); unfold missing; rewrite A; simpl; auto].
  destruct (prop v (str "quantity")) as [b|] eqn:B;
    [|exists (str "quantity"); unfold missing; rewrite B; simpl; auto].
  destruct (truthy b) eqn:Tb;
    [|exists (str "quantity"); unfold missing; rewrite B; simpl; auto].
  destruct (prop v (str "confidence")) as [c|] eqn:C;
    [|exists (str "confidence"); unfold missing; rewrite C; simpl; auto 6].
  destruct (truthy c) eqn:Tc;
    [|exists (str "confidence"); unfold missing; rewrite C; simpl; auto 6].
  unfold verifyResponse in E. rewrite P, A, B, C, Ta, Tb, Tc in E.
  discriminate E.
Qed.

(** C2: every verification attempt that fails ends in the [failure]
    status and leaves the draft as it was; no effect of the attempt writes
    the draft.  The attempts that fail -- all those that do not end in
    [success] -- are exactly these: the model call throws, the returned text
    is not JSON, or the parsed value misses a required field, be it absent
    or present and falsy. *)
Theorem handleVerify_failure (w : World) (s : PageState) (f : File) :
  file s = Some f ->
  let s' := run (handleVerify w s) s in
  ((modelResponse w f = Throws
    \/ exists text, modelResponse w f = Returns text
         /\ (JSON.parse text = None
             \/ exists v k, JSON.parse text = Some v
                  /\ In k requiredFields /\ missing v k))
   <-> verificationStatus s' <> success)
  /\ (verificationStatus s' <> success ->
      verificationStatus s' = failure
      /\ newReport s' = newReport s
      /\ forall d, ~ In (SetNewReport d) (handleVerify w s)).
Proof.
  intros F s'. subst s'. rewrite (handleVerify_run w s f F).
  pose proof (handleVerify_effects w s f F) as E.
  destruct (modelResponse w f) as [text|] eqn:R.
  - destruct (verifyResponse_cases s text)
      as [(v & a & b & c & P & A & B & C & Ta & Tb & Tc & V)|[msg V]].
    + (* accepted *)
      assert (NoCause :
                ~ (JSON.parse text = None
                   \/ exists v' k, JSON.parse text = Some v'
                        /\ In k requiredFields /\ missing v' k)).
      { intros H.
        assert (exists msg, verifyResponse s text = verifyFailed msg)
          as [msg X].
        { destruct H as [P'|(v' & k & P' & K & M)].
          - unfold verifyResponse. rewrite P'. eauto.
          - eapply verifyResponse_missing; eauto. }
        rewrite X in V. discriminate V. }
      rewrite V. cbn. split.
      * split; [|intros H; now destruct H].
        intros [T|(text' & R' & H)]; [discriminate T|].
        injection R' as <-. destruct (NoCause H).
      * intros H. now destruct H.
    + (* not accepted *)
      pose proof (verifyResponse_failed_cause s text msg V) as Cause.
      rewrite V in *. cbn. split.
      * split; [discriminate|]. intros _. right. exists text. auto.
      * intros _. repeat split.
        intros d I. destruct (E _ I) as [[X|[X|[]]]|X]; try discriminate.
        exact (X d eq_refl).
  - cbn. split.
    + split; [discriminate|]. intros _. left. reflexivity.
    + intros _. repeat split. intros d I. exact (E _ I d eq_refl).
Qed.

Lemma handleVerify_failure_witness :
  let w := Samples.world (Returns Samples.missingFieldsText) Throws None in
  let s' := run (handleVerify w Samples.pickedState) Samples.pickedState in
  verificationStatus s' = failure
  /\ newReport s' = newReport Samples.pickedState.
Proof.
  intros w s'.
  destruct (handleVerify_failure w Samples.pickedState Samples.wasteFile
              eq_refl) as (Causes & Failed).
  assert (N : verificationStatus s' <> success).
  { apply (proj1 Causes).
    right. exists Samples.missingFieldsText. split; [reflexivity|].
    right. exists (JObj [(str "wasteType", JStr (str "plastic"))]).
    exists (str "quantity"). split; [reflexivity|].
    split; [simpl; auto|reflexivity]. }
  destruct (Failed N) as (H1 & H2 & _).
  split; [exact H1|exact H2].
Defined.

(** A field that is present but falsy fails the attempt like an absent
    one. *)
Example handleVerify_empty_quantity :
  let text := str "{" ++ quoted "wasteType" ++ str ":" ++ quoted "plastic"
              ++ str "," ++ quoted "quantity" ++ str ":" ++ quoted ""
              ++ str "," ++ quoted "confidence" ++ str ":0.87}" in
  let w := Samples.world (Returns text) Throws None in
  let s' := run (handleVerify w Samples.pickedState) Samples.pickedState in
  (exists v, JSON.parse text = Some v /\ missing v (str "quantity"))
  /\ verificationStatus s' = failure
  /\ newReport s' = newReport Samples.pickedState.
Proof.
  intros text w s'. split; [|split; reflexivity].
  eexists. split; [vm_compute; reflexivity|reflexivity].
Qed.

(** The specification's non-JSON response. *)
Example handleVerify_not_json :
  let w := Samples.world (Returns (str "I cannot analyze this")) Throws None in
  let s' := run (handleVerify w Samples.pickedState) Samples.pickedState in
  JSON.parse (str "I cannot analyze this") = None
  /\ verificationStatus s' = failure
  /\ newReport s' = newReport Samples.pickedState.
Proof. repeat split. Qed.

Lemma verifyResponse_accepts (s : PageState) (text : jsstring)
    (v a b c : JSValue) :
  JSON.parse text = Some v ->
  prop v (str "wasteType") = Some a ->
  prop v (str "quantity") = Some b ->
  prop v (str "confidence") = Some c ->
  truthy a = true -> truthy b = true -> truthy c = true ->
  verifyResponse s text
  = [SetVerificationResult (Some v);
     SetVerificationStatus success;
     SetNewReport {| location := location (newReport s);
                     type := a; amount := b |}].
Proof.
  intros P A B C Ta Tb Tc. unfold verifyResponse.
  now rewrite P, A, B, C, Ta, Tb, Tc.
Qed.

Lemma verifyResponse_zero_confidence (s : PageState) (text : jsstring)
    (v : JSValue) (sign : bool) :
  JSON.parse text = Some v ->
  prop v (str "confidence") = Some (JNum (S754_zero sign)) ->
  exists msg, verifyResponse s text = verifyFailed msg.
Proof.
  intros P C. unfold verifyResponse. rewrite P, C.
  destruct (prop v (str "wasteType")) as [a|]; [|eauto].
  destruct (prop v (str "quantity")) as [b|]; [|eauto].
  destruct (truthy a), (truthy b); simpl; eauto.
Qed.

(** C4: a response is accepted as a verification result -- the status
    becomes [success] and the parsed value is stored -- exactly when it
    parses and its [wasteType], [quantity] and [confidence] are all truthy;
    otherwise the status is [failure].  A confidence of exactly 0 is falsy,
    so such a response ends in [failure]. *)
Theorem verification_accepts_iff_truthy (w : World) (s : PageState)
    (f : File) (text : jsstring) :
  file s = Some f ->
  modelResponse w f = Returns text ->
  let s' := run (handleVerify w s) s in
  (verificationStatus s' = success <->
   exists v a b c,
     JSON.parse text = Some v
     /\ prop v (str "wasteType") = Some a
     /\ prop v (str "quantity") = Some b
     /\ prop v (str "confidence") = Some c
     /\ truthy a = true /\ truthy b = true /\ truthy c = true)
  /\ (verificationStatus s' = success ->
      verificationResult s' = JSON.parse text)
  /\ (verificationStatus s' <> success -> verificationStatus s' = failure)
  /\ (forall v sign,
        JSON.parse text = Some v ->
        prop v (str "confidence") = Some (JNum (S754_zero sign)) ->
        verificationStatus s' = failure).
Proof.
  intros F R s'. subst s'. rewrite (handleVerify_run w s f F), R.
  destruct (verifyResponse_cases s text)
    as [(v & a & b & c & P & A & B & C & Ta & Tb & Tc & E)|[msg E]].
  - rewrite E. cbn. repeat split; auto.
    + intros _. exists v, a, b, c. auto 10.
    + congruence.
    + intros v' sign P' C'.
      assert (Z : c = JNum (S754_zero sign)) by congruence.
      subst c. discriminate Tc.
  - rewrite E. cbn. repeat split; auto; try discriminate.
    intros (v & a & b & c & P & A & B & C & Ta & Tb & Tc).
    rewrite (verifyResponse_accepts s text v a b c P A B C Ta Tb Tc) in E.
    discriminate.
Qed.

Lemma verification_accepts_iff_truthy_witness :
  let w := Samples.world (Returns (Samples.textWithConfidence (str "0")))
             Throws None in
  verificationStatus
    (run (handleVerify w Samples.pickedState) Samples.pickedState) = failure.
Proof.
  intros w.
  destruct (verification_accepts_iff_truthy w Samples.pickedState
              Samples.wasteFile (Samples.textWithConfidence (str "0"))
              eq_refl eq_refl) as (_ & _ & _ & H).
  apply (H (JObj [(str "wasteType", JStr (str "plastic"));
                  (str "quantity", JStr (str "2kg"));
                  (str "confidence", JNum (S754_zero false))]) false);
    reflexivity.
Defined.

Example negative_zero_confidence_is_rejected :
  let w := Samples.world (Returns (Samples.textWithConfidence (str "-0.0")))
             Throws None in
  verificationStatus
    (run (handleVerify w Samples.pickedState) Samples.pickedState) = failure.
Proof. reflexivity. Qed.

(** C7: for the response text of the specification's example
    ([Samples.plasticText]: wasteType plastic, quantity 2kg, confidence 0.87)
    [handleVerify] parses it, stores the parsed object as the verification
    result, sets the status to [success], and sets the draft's type to
    plastic and its amount to 2kg. *)
Theorem handleVerify_plastic (w : World) (s : PageState) (f : File) :
  file s = Some f ->
  modelResponse w f = Returns Samples.plasticText ->
  let s' := run (handleVerify w s) s in
  JSON.parse Samples.plasticText = Some Samples.plasticResult
  /\ verificationResult s' = Some Samples.plasticResult
  /\ verificationStatus s' = success
  /\ type (newReport s') = JStr (str "plastic")
  /\ amount (newReport s') = JStr (str "2kg")
  /\ location (newReport s') = location (newReport s).
Proof.
  intros F R s'. subst s'. rewrite (handleVerify_run w s f F), R.
  assert (P : JSON.parse Samples.plasticText = Some Samples.plasticResult)
    by (vm_compute; reflexivity).
  rewrite (verifyResponse_accepts s _ _ (JStr (str "plastic"))
             (JStr (str "2kg"))
             (JNum (S754_finite false 7836263351624663 (-53))) P
             eq_refl eq_refl eq_refl eq_refl eq_refl eq_refl).
  cbn. repeat split; auto.
Qed.

Lemma handleVerify_plastic_witness :
  let w := Samples.world (Returns Samples.plasticText) Throws None in
  let s' := run (handleVerify w Samples.pickedState) Samples.pickedState in
  verificationStatus s' = success
  /\ type (newReport s') = JStr (str "plastic")
  /\ amount (newReport s') = JStr (str "2kg").
Proof.
  intros w s'.
  destruct (handleVerify_plastic w Samples.pickedState Samples.wasteFile
              eq_refl eq_refl) as (_ & _ & H1 & H2 & H3 & _).
  split; [exact H1|]. split; [exact H2|exact H3].
Defined.

(** C9: the validity test looks at truthiness only.  Whatever the types
    and ranges of the three fields, a parsed value whose [wasteType],
    [quantity] and [confidence] are truthy is accepted: the status becomes
    [success], the value is stored, and [wasteType] and [quantity] are copied
    into the draft as they are. *)
Theorem handleVerify_truthiness_only (w : World) (s : PageState) (f : File)
    (text : jsstring) (v a b c : JSValue) :
  file s = Some f ->
  modelResponse w f = Returns text ->
  JSON.parse text = Some v ->
  prop v (str "wasteType") = Some a ->
  prop v (str "quantity") = Some b ->
  prop v (str "confidence") = Some c ->
  truthy a = true -> truthy b = true -> truthy c = true ->
  let s' := run (handleVerify w s) s in
  verificationStatus s' = success
  /\ verificationResult s' = Some v
  /\ type (newReport s') = a
  /\ amount (newReport s') = b.
Proof.
  intros F R P A B C Ta Tb Tc s'. subst s'.
  rewrite (handleVerify_run w s f F), R.
  rewrite (verifyResponse_accepts s text v a b c P A B C Ta Tb Tc).
  cbn. auto.
Qed.

(** A confidence that is not a number at all. *)
Lemma handleVerify_truthiness_only_witness :
  let text := Samples.textWithConfidence (quoted "high") in
  let w := Samples.world (Returns text) Throws None in
  let s' := run (handleVerify w Samples.pickedState) Samples.pickedState in
  verificationStatus s' = success
  /\ type (newReport s') = JStr (str "plastic")
  /\ amount (newReport s') = JStr (str "2kg").
Proof.
  intros text w s'.
  destruct (handleVerify_truthiness_only w Samples.pickedState
              Samples.wasteFile text
              (JObj [(str "wasteType", JStr (str "plastic"));
                     (str "quantity", JStr (str "2kg"));
                     (str "confidence", JStr (str "high"))])
              (JStr (str "plastic")) (JStr (str "2kg")) (JStr (str "high"))
              eq_refl eq_refl eq_refl eq_refl eq_refl eq_refl
              eq_refl eq_refl eq_refl) as (H1 & _ & H2 & H3).
  split; [exact H1|]. split; [exact H2|exact H3].
Defined.

(** Confidences outside [0,1], and fields of other types, pass as well. *)
Example confidence_five_is_accepted :
  let w := Samples.world (Returns (Samples.textWithConfidence (str "5")))
             Throws None in
  verificationStatus
    (run (handleVerify w Samples.pickedState) Samples.pickedState) = success.
Proof. reflexivity. Qed.

Example negative_confidence_is_accepted :
  let w := Samples.world (Returns (Samples.textWithConfidence (str "-0.3")))
             Throws None in
  verificationStatus
    (run (handleVerify w Samples.pickedState) Samples.pickedState) = success.
Proof. reflexivity. Qed.

Example numeric_waste_type_is_copied :
  let text := str "{" ++ quoted "wasteType" ++ str ":[1],"
              ++ quoted "quantity" ++ str ":true,"
              ++ quoted "confidence" ++ str ":{}}" in
  let w := Samples.world (Returns text) Throws None in
  let s' := run (handleVerify w Samples.pickedState) Samples.pickedState in
  verificationStatus s' = success
  /\ type (newReport s')
     = JArr [JNum (S754_finite false 4503599627370496 (-52))]
  /\ amount (newReport s') = JBool true.
Proof. repeat split. Qed.

(** C3 (as the code has it): a new verify attempt, from [success] or
    [failure] as from any other status, re-enters [verifying] and ends in
    [success] or [failure].  The stored verification result is replaced only
    when the attempt succeeds, by the newly parsed value; while the attempt
    is in flight and after it has failed, the result of the previous attempt
    is still stored.  The reset after a successful submission clears it. *)
Theorem handleVerify_restart (w : World) (s : PageState) (f : File) :
  file s = Some f ->
  let inFlight := run [SetVerificationStatus verifying] s in
  let s' := run (handleVerify w s) s in
  (exists rest,
      handleVerify w s
      = SetVerificationStatus verifying :: ReadAsDataURL f :: rest)
  /\ verificationStatus inFlight = verifying
  /\ verificationResult inFlight = verificationResult s
  /\ (verificationStatus s' = success \/ verificationStatus s' = failure)
  /\ (verificationStatus s' = success ->
      exists text v,
        modelResponse w f = Returns text
        /\ JSON.parse text = Some v
        /\ verificationResult s' = Some v)
  /\ (verificationStatus s' = failure ->
      verificationResult s' = verificationResult s)
  /\ (forall u report formatted,
        verificationStatus s = success ->
        user s = Some u ->
        createReport w (submitArgs w u s) = Returns (Some report) ->
        formatReport report = Some formatted ->
        verificationResult (run (handleSubmit w s) s) = None).
Proof.
  intros F inFlight s'. subst inFlight s'.
  assert (Reset : forall u report formatted,
             verificationStatus s = success ->
             user s = Some u ->
             createReport w (submitArgs w u s) = Returns (Some report) ->
             formatReport report = Some formatted ->
             verificationResult (run (handleSubmit w s) s) = None).
  { intros u report formatted St U C Fm.
    rewrite (handleSubmit_accepted w s u St U), C, Fm. reflexivity. }
  split; [exact (handleVerify_begins w s f F)|].
  split; [reflexivity|]. split; [reflexivity|].
  rewrite (handleVerify_run w s f F).
  destruct (modelResponse w f) as [text|].
  - destruct (verifyResponse_cases s text)
      as [(v & a & b & c & P & _ & _ & _ & _ & _ & _ & E)|[msg E]];
      rewrite E; cbn.
    + split; [auto|]. split; [eauto|]. split; [discriminate|exact Reset].
    + split; [auto|]. split; [discriminate|]. split; [reflexivity|exact Reset].
  - cbn. split; [auto|]. split; [discriminate|].
    split; [reflexivity|exact Reset].
Qed.

Lemma handleVerify_restart_witness :
  let w := Samples.world (Returns Samples.missingFieldsText) Throws None in
  let s := Samples.verifiedState in
  verificationStatus (run [SetVerificationStatus verifying] s) = verifying
  /\ verificationResult (run [SetVerificationStatus verifying] s)
     = verificationResult s
  /\ (verificationStatus (run (handleVerify w s) s) = failure ->
      verificationResult (run (handleVerify w s) s) = verificationResult s).
Proof.
  intros w s.
  destruct (handleVerify_restart w s Samples.wasteFile eq_refl)
    as (_ & H1 & H2 & _ & _ & H3 & _).
  split; [exact H1|]. split; [exact H2|exact H3].
Defined.

(** C3 as stated fails: a page that holds a verified result, on which a
    new attempt gets a response that is not JSON, ends in [failure] with the
    previous result still stored. *)
Lemma handleVerify_keeps_previous_result :
  let w := Samples.world (Returns (str "I cannot analyze this")) Throws None in
  let s := Samples.verifiedState in
  let s' := run (handleVerify w s) s in
  verificationStatus s = success
  /\ verificationResult s = Some Samples.plasticResult
  /\ verificationStatus s' = failure
  /\ verificationResult s' = Some Samples.plasticResult
  /\ verificationResult s' <> None.
Proof. repeat split. discriminate. Qed.

(** ** Session bootstrap *)

(** C8: on mount, with no cached email in local storage the effect only
    redirects to the login route, calling neither [getUserByEmail] nor
    [createUser] nor [getRecentReports]; with a cached email for which no
    user exists it creates a user named "Anonymous User" and makes it the
    page's user. *)
Theorem checkUser_bootstrap (w : World) :
  (localStorage_getItem w (str "userEmail") = None ->
   checkUser w = [LocalStorageGetItem "userEmail"; RouterPush "/login"]
   /\ existsb is_store_call (checkUser w) = false)
  /\ (forall email,
        localStorage_getItem w (str "userEmail") = Some email ->
        email <> [] ->
        getUserByEmail w email = Returns None ->
        In (CreateUser email "Anonymous User") (checkUser w)
        /\ ~ In (RouterPush "/login") (checkUser w)
        /\ forall u,
             createUser w email (str "Anonymous User") = Returns u ->
             In (SetUser u) (checkUser w)
             /\ user (run (checkUser w) initialState) = u).
Proof.
  split.
  - intros H. unfold checkUser. rewrite H. split; reflexivity.
  - intros email H Hne Hget. unfold checkUser. rewrite H.
    destruct email as [|c e]; [contradiction|]. cbv zeta. rewrite Hget.
    split; [simpl; auto|]. split.
    + unfold loadReports.
      destruct (createUser w (c :: e) (str "Anonymous User")) as [u|];
        [destruct (getRecentReports w) as [l|];
         [destruct (formatReports l)|]|];
        simpl; intros I;
        repeat (destruct I as [I|I]; [discriminate I|]); exact I.
    + intros u Hu. rewrite Hu. unfold loadReports.
      destruct (getRecentReports w) as [l|];
        [destruct (formatReports l)|]; split; cbn; auto.
Qed.

Lemma checkUser_bootstrap_witness :
  let w := Samples.world Throws Throws (Some (str "bob@example.org")) in
  In (CreateUser (str "bob@example.org") "Anonymous User") (checkUser w)
  /\ user (run (checkUser w) initialState)
     = Some {| user_id := 1; user_email := str "bob@example.org";
               user_name := str "Anonymous User" |}.
Proof.
  intros w.
  destruct (proj2 (checkUser_bootstrap w) (str "bob@example.org") eq_refl
              ltac:(discriminate) eq_refl) as (H1 & _ & H2).
  split; [exact H1|]. exact (proj2 (H2 _ eq_refl)).
Defined.

Example checkUser_no_email :
  checkUser (Samples.world Throws Throws None)
  = [LocalStorageGetItem "userEmail"; RouterPush "/login"].
Proof. reflexivity. Qed.

(** A cached email that is the empty string is falsy: the effect redirects
    as well. *)
Lemma checkUser_empty_email (w : World) :
  localStorage_getItem w (str "userEmail") = Some [] ->
  checkUser w = [LocalStorageGetItem "userEmail"; RouterPush "/login"].
Proof. intros H. unfold checkUser. now rewrite H. Qed.

Lemma checkUser_known_user (w : World) (email : jsstring) (u : User) :
  localStorage_getItem w (str "userEmail") = Some email ->
  email <> [] ->
  getUserByEmail w email = Returns (Some u) ->
  checkUser w
  = LocalStorageGetItem "userEmail" :: GetUserByEmail email
    :: loadReports w (Some u).
Proof.
  intros H Hne Hget. unfold checkUser. rewrite H.
  destruct email as [|c e]; [contradiction|]. cbv zeta. now rewrite Hget.
Qed.

(** * Further properties of the page *)

Lemma runUpdates_Do (l : list Effect) (s : PageState) :
  runUpdates (map Do l) s = run l s.
Proof.
  revert s; induction l as [|e l IH]; intros s; [reflexivity|].
  simpl. apply IH.
Qed.

(** ** The draft inputs *)

(** [handleInputChange] writes the named field of the draft with the typed
    text and takes the two other fields from the draft of its render; it
    touches nothing else, so the verification status and result survive an
    edit, of the type and amount fields as well. *)
Lemma handleInputChange_one_field (s : PageState) (name : Field)
    (value : jsstring) :
  let s' := runUpdates (handleInputChange s name value) s in
  match name with
  | LocationField =>
      location (newReport s') = value
      /\ type (newReport s') = type (newReport s)
      /\ amount (newReport s') = amount (newReport s)
  | TypeField =>
      location (newReport s') = location (newReport s)
      /\ type (newReport s') = JStr value
      /\ amount (newReport s') = amount (newReport s)
  | AmountField =>
      location (newReport s') = location (newReport s)
      /\ type (newReport s') = type (newReport s)
      /\ amount (newReport s') = JStr value
  end
  /\ verificationStatus s' = verificationStatus s
  /\ verificationResult s' = verificationResult s
  /\ file s' = file s /\ preview s' = preview s
  /\ reports s' = reports s /\ user s' = user s
  /\ isSubmitting s' = isSubmitting s /\ searchBox s' = searchBox s.
Proof. destruct name; cbn; auto 12. Qed.

(** X1: [onPlacesChanged] does nothing without a search box or without a place.
    Otherwise it sets the location to the address of the first place, or to
    the empty string when the place has none; being a functional update, it
    keeps the type and amount of the draft it is applied to, whatever the
    render it was created in. *)
Theorem onPlacesChanged_location (s : PageState)
    (places : option (list Place)) :
  (searchBox s = None \/ places = None \/ places = Some [] ->
   onPlacesChanged s places = [])
  /\ (forall ref place rest cur,
        searchBox s = Some ref ->
        places = Some (place :: rest) ->
        let s' := runUpdates (onPlacesChanged s places) cur in
        location (newReport s')
        = match formatted_address place with
          | Some (c :: a) => c :: a
          | _ => str ""
          end
        /\ type (newReport s') = type (newReport cur)
        /\ amount (newReport s') = amount (newReport cur)
        /\ verificationStatus s' = verificationStatus cur
        /\ verificationResult s' = verificationResult cur
        /\ file s' = file cur /\ preview s' = preview cur).
Proof.
  split.
  - unfold onPlacesChanged. intros [H|[H|H]]; rewrite H;
      destruct (searchBox s); reflexivity.
  - intros ref place rest cur B P. unfold onPlacesChanged.
    rewrite B, P. cbn. auto 8.
Qed.

Lemma onPlacesChanged_location_witness :
  let s := withSearchBox Samples.verifiedState in
  let s' := runUpdates (onPlacesChanged s (Some [townHall])) s in
  location (newReport s') = str "1 Town Hall Square"
  /\ type (newReport s') = JStr (str "plastic")
  /\ verificationStatus s' = success.
Proof.
  intros s s'.
  destruct (proj2 (onPlacesChanged_location s (Some [townHall]))
              1%N townHall [] s eq_refl eq_refl)
    as (H1 & H2 & _ & H3 & _).
  split; [exact H1|]. split; [exact H2|exact H3].
Defined.

(** ** Image intake *)

(** X2: [handleFileChange] never touches the draft, the verification status
    and result, the reports or the user.  With a file in the list, the first
    one becomes the selected file; the preview follows only when the read
    succeeds, and stays the former one when it fails. *)
Theorem handleFileChange_frame (w : World) (s : PageState)
    (files : option (list File)) :
  let s' := run (handleFileChange w files) s in
  newReport s' = newReport s
  /\ verificationStatus s' = verificationStatus s
  /\ verificationResult s' = verificationResult s
  /\ reports s' = reports s /\ user s' = user s
  /\ isSubmitting s' = isSubmitting s
  /\ existsb is_store_call (handleFileChange w files) = false
  /\ forall f rest,
       files = Some (f :: rest) ->
       file s' = Some f
       /\ preview s'
          = match readAsDataURL w f with
            | Returns url => Some url
            | Throws => preview s
            end.
Proof.
  unfold handleFileChange.
  destruct files as [[|f rest]|]; cbn;
    try (do 7 (split; [reflexivity|]); intros; discriminate).
  destruct (readAsDataURL w f) as [url|] eqn:R; cbn;
    do 7 (split; [reflexivity|]);
    intros f' rest' E; injection E as <- <-; rewrite R; split; reflexivity.
Qed.

Lemma handleFileChange_frame_witness :
  let w := Samples.world Throws Throws None in
  let s' := run (handleFileChange w (Some [otherFile])) Samples.verifiedState in
  file s' = Some otherFile
  /\ preview s' = Some Samples.dataURL
  /\ verificationStatus s' = success.
Proof.
  intros w s'.
  destruct (handleFileChange_frame w Samples.verifiedState (Some [otherFile]))
    as (_ & H1 & _ & _ & _ & _ & _ & H2).
  destruct (H2 otherFile [] eq_refl) as (H3 & H4).
  split; [exact H3|]. split; [exact H4|exact H1].
Defined.

(** X3: Picking another image after a successful verification does not reset
    it: the next submission sends the new image with the draft and the
    verification result obtained for the former one. *)
Theorem submit_after_new_file (w w' : World) (s : PageState) (u : User)
    (f : File) (rest : list File) (c : N) (url : jsstring) :
  verificationStatus s = success ->
  user s = Some u ->
  readAsDataURL w f = Returns (c :: url) ->
  let s1 := run (handleFileChange w (Some (f :: rest))) s in
  In (CreateReport
        {| arg_userId := user_id u;
           arg_location := location (newReport s);
           arg_type := type (newReport s);
           arg_amount := amount (newReport s);
           arg_imageUrl := Some (c :: url);
           arg_verificationResult :=
             arg_verificationResult (submitArgs w' u s) |})
     (handleSubmit w' s1).
Proof.
  intros St U R s1.
  assert (St1 : verificationStatus s1 = success).
  { subst s1. unfold handleFileChange. rewrite R. exact St. }
  assert (U1 : user s1 = Some u).
  { subst s1. unfold handleFileChange. rewrite R. exact U. }
  rewrite (handleSubmit_accepted w' s1 u St1 U1).
  right. right. left. f_equal.
  subst s1. unfold handleFileChange. rewrite R. reflexivity.
Qed.

Lemma submit_after_new_file_witness :
  let w := Samples.world Throws Throws None in
  let s1 := run (handleFileChange w (Some [otherFile])) Samples.verifiedState in
  In (CreateReport
        {| arg_userId := 7;
           arg_location := str "Main Street 1";
           arg_type := JStr (str "plastic");
           arg_amount := JStr (str "2kg");
           arg_imageUrl := Some Samples.dataURL;
           arg_verificationResult := Some (str "{}") |})
     (handleSubmit w s1).
Proof.
  intros w s1.
  exact (submit_after_new_file w w Samples.verifiedState Samples.alice
           otherFile [] 100%N
           (str "ata:image/png;base64,iVBORw==") eq_refl eq_refl eq_refl).
Defined.

(** ** Verification *)

Lemma split_cons_sep (sep : N) (h p : jsstring) :
  Forall (fun c => c <> sep) h ->
  split sep (h ++ sep :: p) = h :: split sep p.
Proof.
  induction 1 as [|c h Hc Hh IH]; simpl.
  - now rewrite N.eqb_refl.
  - destruct (N.eqb_spec c sep) as [E|_]; [contradiction|]. now rewrite IH.
Qed.

Lemma split_no_sep (sep : N) (s : jsstring) :
  Forall (fun c => c <> sep) s -> split sep s = [s].
Proof.
  induction 1 as [|c s Hc Hs IH]; simpl; [reflexivity|].
  destruct (N.eqb_spec c sep) as [E|_]; [contradiction|]. now rewrite IH.
Qed.

(** The effects of a verify attempt, by what the world answers. *)
Lemma handleVerify_shape (w : World) (s : PageState) (f : File) :
  file s = Some f ->
  exists mid tail,
    handleVerify w s
    = SetVerificationStatus verifying :: ReadAsDataURL f :: mid ++ tail
    /\ (mid = [] /\ readAsDataURL w f = Throws
        \/ exists url,
             readAsDataURL w f = Returns url
             /\ mid = [GenerateContent prompt (nth_error (split 44 url) 1)
                         (file_type f)])
    /\ ((exists msg, tail = verifyFailed msg)
        \/ exists text v a b,
             modelResponse w f = Returns text
             /\ JSON.parse text = Some v
             /\ tail = [SetVerificationResult (Some v);
                        SetVerificationStatus success;
                        SetNewReport {| location := location (newReport s);
                                        type := a; amount := b |}]).
Proof.
  intros F. unfold handleVerify, modelResponse. rewrite F.
  destruct (readAsDataURL w f) as [url|].
  - cbv zeta.
    exists [GenerateContent prompt (nth_error (split 44 url) 1) (file_type f)].
    destruct (generateContent w prompt (nth_error (split 44 url) 1) (file_type f))
      as [text|].
    + destruct (verifyResponse_cases s text)
        as [(v & a & b & c & P & _ & _ & _ & _ & _ & _ & E)|[msg E]];
        rewrite E; eexists; (split; [reflexivity|]);
        (split; [right; eauto|]).
      * right. exists text, v, a, b. auto.
      * left. eauto.
    + eexists. split; [reflexivity|]. split; [right; eauto|left; eauto].
  - exists [], (verifyFailed "Error verifying waste:").
    split; [reflexivity|]. split; [left; auto|left; eauto].
Qed.

(** X4: [handleVerify] calls the model exactly when a file is selected and could
    be read, and then once.  Of a data URL [header,payload] it sends the
    payload only, with the file's MIME type and the fixed prompt; of a result
    without a comma it sends no data. *)
Theorem handleVerify_model_call (w : World) (s : PageState) :
  (existsb is_modelCall (handleVerify w s) = true <->
   exists f url, file s = Some f /\ readAsDataURL w f = Returns url)
  /\ (forall f header payload tail,
        file s = Some f ->
        readAsDataURL w f = Returns (header ++ 44%N :: payload ++ tail) ->
        Forall (fun c => c <> 44%N) header ->
        Forall (fun c => c <> 44%N) payload ->
        tail = [] \/ (exists t, tail = 44%N :: t) ->
        filter is_modelCall (handleVerify w s)
        = [GenerateContent prompt (Some payload) (file_type f)])
  /\ (forall f url,
        file s = Some f ->
        readAsDataURL w f = Returns url ->
        Forall (fun c => c <> 44%N) url ->
        filter is_modelCall (handleVerify w s)
        = [GenerateContent prompt None (file_type f)]).
Proof.
  assert (Sent : forall f url,
             file s = Some f ->
             readAsDataURL w f = Returns url ->
             filter is_modelCall (handleVerify w s)
             = [GenerateContent prompt (nth_error (split 44 url) 1)
                  (file_type f)]).
  { intros f url F R.
    destruct (handleVerify_shape w s f F) as (mid & tail & E & M & T).
    rewrite E.
    destruct M as [[_ M]|(url' & R' & ->)]; [congruence|].
    assert (url' = url) by congruence. subst url'.
    destruct T as [[msg ->]|(text & v & a & b & _ & _ & ->)]; reflexivity. }
  split; [split|split].
  - intros I.
    destruct (file s) as [f|] eqn:F.
    + destruct (handleVerify_shape w s f F) as (mid & tail & E & M & T).
      destruct M as [[-> R]|(url & R & _)]; [|eauto].
      rewrite E in I.
      destruct T as [[msg ->]|(text & v & a & b & _ & _ & ->)];
        discriminate I.
    + rewrite (handleVerify_no_file w s F) in I. discriminate I.
  - intros (f & url & F & R).
    unfold handleVerify. rewrite F, R. reflexivity.
  - intros f header payload tail F R Hh Hp Ht.
    rewrite (Sent f _ F R), (split_cons_sep 44 header _ Hh). simpl nth_error.
    destruct Ht as [->|[t ->]].
    + rewrite app_nil_r, (split_no_sep 44 payload Hp). reflexivity.
    + rewrite (split_cons_sep 44 payload _ Hp). reflexivity.
  - intros f url F R Hu.
    rewrite (Sent f url F R), (split_no_sep 44 url Hu). reflexivity.
Qed.

Lemma handleVerify_model_call_witness :
  filter is_modelCall
    (handleVerify (Samples.world Throws Throws None) Samples.pickedState)
  = [GenerateContent prompt (Some (str "iVBORw==")) (str "image/png")].
Proof.
  apply (proj1 (proj2 (handleVerify_model_call
                         (Samples.world Throws Throws None)
                         Samples.pickedState))
           Samples.wasteFile (str "data:image/png;base64")
           (str "iVBORw==") [] eq_refl eq_refl).
  - repeat constructor; discriminate.
  - repeat constructor; discriminate.
  - left; reflexivity.
Defined.

(** X5: A verify attempt never calls the stores and leaves the user, the
    reports, the selected file, the preview and the submitting flag as they
    were. *)
Theorem handleVerify_frame (w : World) (s : PageState) :
  let s' := run (handleVerify w s) s in
  existsb is_store_call (handleVerify w s) = false
  /\ user s' = user s /\ reports s' = reports s
  /\ file s' = file s /\ preview s' = preview s
  /\ isSubmitting s' = isSubmitting s /\ searchBox s' = searchBox s.
Proof.
  destruct (file s) as [f|] eqn:F.
  - destruct (handleVerify_shape w s f F) as (mid & tail & E & M & T).
    rewrite E.
    destruct M as [[-> _]|(url & _ & ->)];
      destruct T as [[msg ->]|(text & v & a & b & _ & _ & ->)];
      cbn; auto 8.
  - rewrite (handleVerify_no_file w s F). cbn. auto 8.
Qed.

(** X6: The draft written by a successful verification is built from the draft
    of the render in which Verify was clicked: its location is the one of
    that moment, so whatever was written to the draft while the attempt was
    in flight is overwritten. *)
Theorem handleVerify_overwrites_edits (w : World) (s : PageState) (f : File)
    (text : jsstring) (v a b c : JSValue) :
  file s = Some f ->
  modelResponse w f = Returns text ->
  JSON.parse text = Some v ->
  prop v (str "wasteType") = Some a ->
  prop v (str "quantity") = Some b ->
  prop v (str "confidence") = Some c ->
  truthy a = true -> truthy b = true -> truthy c = true ->
  exists rest,
    handleVerify w s
    = SetVerificationStatus verifying :: ReadAsDataURL f :: rest
    /\ forall cur,
         newReport (run rest cur)
         = {| location := location (newReport s); type := a; amount := b |}.
Proof.
  intros F R P A B C Ta Tb Tc.
  pose proof (verifyResponse_accepts s text v a b c P A B C Ta Tb Tc) as E.
  unfold handleVerify, modelResponse in *. rewrite F.
  destruct (readAsDataURL w f) as [url|]; [|discriminate].
  cbv zeta. rewrite R, E. eexists. split; [reflexivity|].
  intros cur. reflexivity.
Qed.

Lemma handleVerify_overwrites_edits_witness :
  let w := Samples.world (Returns Samples.plasticText) Throws None in
  let s := Samples.pickedState in
  let inFlight := run [SetVerificationStatus verifying] s in
  let edited :=
    runUpdates (handleInputChange inFlight LocationField (str "Elm Road 5"))
      inFlight in
  location (newReport edited) = str "Elm Road 5"
  /\ location (newReport (run (skipn 2 (handleVerify w s)) edited))
     = str "Main Street 1".
Proof.
  intros w s inFlight edited. split; [reflexivity|].
  destruct (handleVerify_overwrites_edits w s Samples.wasteFile
              Samples.plasticText Samples.plasticResult
              (JStr (str "plastic")) (JStr (str "2kg"))
              (JNum (S754_finite false 7836263351624663 (-53)))
              eq_refl eq_refl eq_refl eq_refl eq_refl eq_refl
              eq_refl eq_refl eq_refl) as (rest & E & H).
  rewrite E. simpl skipn. rewrite (H edited). reflexivity.
Defined.

(** After an attempt that fails, an edit made in the meantime stays. *)
Lemma failed_verify_keeps_edits (w : World) (s : PageState) (f : File) :
  file s = Some f ->
  verificationStatus (run (handleVerify w s) s) = failure ->
  forall cur, newReport (run (handleVerify w s) cur) = newReport cur.
Proof.
  intros F St cur.
  destruct (handleVerify_shape w s f F) as (mid & tail & E & M & T).
  rewrite E in *.
  destruct M as [[-> _]|(url & _ & ->)];
    destruct T as [[msg ->]|(text & v & a & b & _ & _ & ->)];
    cbn in *; try reflexivity; discriminate.
Qed.

(** ** The JSX conditions around a verify attempt run alone *)



(** ** Submission *)

Ltac in_list :=
  repeat match goal with
         | |- _ \/ _ => first [left; reflexivity | right]
         end.

(** X8: Once past the gate, [handleSubmit] calls the store once and always ends
    with the submitting flag down, whatever the store does.  Either the
    success notice is shown, or the error notice is shown and the draft, the
    file, the preview, the verification and the reports are as before: this
    covers a store that throws, one that answers null and a row whose
    creation date is invalid. *)
Theorem handleSubmit_settles (w : World) (s : PageState) (u : User) :
  verificationStatus s = success ->
  user s = Some u ->
  let s' := run (handleSubmit w s) s in
  isSubmitting s' = false
  /\ user s' = user s
  /\ filter is_createReport (handleSubmit w s)
     = [CreateReport (submitArgs w u s)]
  /\ existsb is_modelCall (handleSubmit w s) = false
  /\ (In (ToastSuccess "Report submitted successfully! You've earned points for reporting waste.")
         (handleSubmit w s)
      \/ In (ToastError "Failed to submit report. Please try again.")
            (handleSubmit w s)
         /\ newReport s' = newReport s /\ file s' = file s
         /\ preview s' = preview s
         /\ verificationStatus s' = verificationStatus s
         /\ verificationResult s' = verificationResult s
         /\ reports s' = reports s).
Proof.
  intros St U s'. subst s'.
  rewrite (handleSubmit_accepted w s u St U).
  destruct (createReport w (submitArgs w u s)) as [[report|]|];
    [destruct (formatReport report)| |]; cbn;
    do 4 (split; [reflexivity|]).
  - left. in_list.
  - right. split; [in_list|auto 8].
  - right. split; [in_list|auto 8].
  - right. split; [in_list|auto 8].
Qed.

Lemma handleSubmit_settles_witness :
  let w := Samples.world Throws (Returns None) None in
  let s' := run (handleSubmit w Samples.verifiedState) Samples.verifiedState in
  isSubmitting s' = false /\ newReport s' = newReport Samples.verifiedState.
Proof.
  intros w s'.
  destruct (handleSubmit_settles w Samples.verifiedState Samples.alice
              eq_refl eq_refl) as (H1 & _ & _ & _ & [H|(_ & H2 & _)]).
  - split; [exact H1|reflexivity].
  - split; [exact H1|exact H2].
Defined.

Lemma success_notice_inv (w : World) (s : PageState) (msg : string) :
  In (ToastSuccess msg) (handleSubmit w s) ->
  exists u report formatted,
    verificationStatus s = success
    /\ user s = Some u
    /\ createReport w (submitArgs w u s) = Returns (Some report)
    /\ formatReport report = Some formatted.
Proof.
  unfold handleSubmit.
  destruct (verificationStatus s), (user s) as [u|];
    try (simpl; intros H;
         repeat (destruct H as [H|H]; [discriminate H|]); contradiction).
  destruct (createReport w (submitArgs w u s)) as [[report|]|] eqn:C;
    [destruct (formatReport report) as [formatted|] eqn:Fm| |];
    try (simpl; intros H;
         repeat (destruct H as [H|H]; [discriminate H|]); contradiction).
  intros _. exists u, report, formatted. auto.
Qed.

(** X9: A report is not submitted twice: once the success notice has been
    shown, a further submit is turned away at the gate, whatever the world,
    until a new verification succeeds. *)
Theorem handleSubmit_not_twice (w w' : World) (s : PageState) :
  In (ToastSuccess "Report submitted successfully! You've earned points for reporting waste.")
     (handleSubmit w s) ->
  handleSubmit w' (run (handleSubmit w s) s)
  = [PreventDefault;
     ToastError "Please verify the waste before submitting or log in."]
  /\ existsb is_io (handleSubmit w' (run (handleSubmit w s) s)) = false.
Proof.
  intros H.
  destruct (success_notice_inv w s _ H) as (u & report & fr & St & U & C & Fm).
  rewrite (handleSubmit_accepted w s u St U), C, Fm.
  split; reflexivity.
Qed.

Lemma handleSubmit_not_twice_witness :
  let w := Samples.world Throws (Returns (Some Samples.storedRow)) None in
  handleSubmit w (run (handleSubmit w Samples.verifiedState)
                    Samples.verifiedState)
  = [PreventDefault;
     ToastError "Please verify the waste before submitting or log in."].
Proof.
  intros w.
  apply (handleSubmit_not_twice w w Samples.verifiedState).
  vm_compute. in_list.
Defined.

(** ** Session bootstrap *)

Ltac not_in H :=
  repeat (destruct H as [H|H]; [discriminate H|]); try contradiction.

Lemma loadReports_effects (w : World) (u : option User) (e : Effect) :
  In e (loadReports w u) ->
  e = SetUser u \/ e = GetRecentReports \/ exists l, e = SetReports l.
Proof.
  unfold loadReports.
  destruct (getRecentReports w) as [rows|];
    [destruct (formatReports rows)|]; simpl; intuition eauto.
Qed.

(** X10: [checkUser] redirects to the login route exactly when the cached email
    is missing or empty, and then calls no store.  It creates a user exactly
    when the email is cached and [getUserByEmail] answers null: a user that
    exists is never created again.  The user it sets is the one found, or
    else the one [createUser] answered; when [getUserByEmail] throws it sets
    nothing. *)
Theorem checkUser_calls (w : World) :
  (In (RouterPush "/login") (checkUser w) <->
   localStorage_getItem w (str "userEmail") = None
   \/ localStorage_getItem w (str "userEmail") = Some [])
  /\ (In (RouterPush "/login") (checkUser w) ->
      existsb is_store_call (checkUser w) = false)
  /\ (forall email name,
        In (CreateUser email name) (checkUser w) <->
        localStorage_getItem w (str "userEmail") = Some email
        /\ email <> []
        /\ getUserByEmail w email = Returns None
        /\ name = "Anonymous User"%string)
  /\ (forall u,
        In (SetUser u) (checkUser w) ->
        exists email,
          localStorage_getItem w (str "userEmail") = Some email
          /\ (getUserByEmail w email = Returns u /\ u <> None
              \/ getUserByEmail w email = Returns None
                 /\ createUser w email (str "Anonymous User") = Returns u))
  /\ (forall email,
        localStorage_getItem w (str "userEmail") = Some email ->
        email <> [] ->
        getUserByEmail w email = Throws ->
        checkUser w = [LocalStorageGetItem "userEmail"; GetUserByEmail email]).
Proof.
  unfold checkUser.
  destruct (localStorage_getItem w (str "userEmail")) as [[|c e]|] eqn:G.
  - (* an empty email *)
    split; [split; [auto|simpl; auto]|].
    split; [reflexivity|].
    split; [intros email name; split;
            [intros H; simpl in H; not_in H
            |intros (E & N & _); congruence]|].
    split; [intros u H; simpl in H; not_in H|].
    intros email E N. congruence.
  - (* a cached email *)
    cbv zeta.
    assert (NoPush : ~ In (RouterPush "/login")
                       (LocalStorageGetItem "userEmail"
                        :: GetUserByEmail (c :: e)
                        :: match getUserByEmail w (c :: e) with
                           | Returns (Some u) => loadReports w (Some u)
                           | Returns None =>
                               CreateUser (c :: e) "Anonymous User"
                               :: match createUser w (c :: e)
                                          (str "Anonymous User") with
                                  | Returns u => loadReports w u
                                  | Throws => []
                                  end
                           | Throws => []
                           end)).
    { intros [H|[H|H]]; try discriminate.
      destruct (getUserByEmail w (c :: e)) as [[u|]|]; [| |destruct H].
      - apply loadReports_effects in H.
        destruct H as [H|[H|[l H]]]; discriminate.
      - destruct H as [H|H]; [discriminate|].
        destruct (createUser w (c :: e) (str "Anonymous User")) as [u|];
          [|destruct H].
        apply loadReports_effects in H.
        destruct H as [H|[H|[l H]]]; discriminate. }
    split; [split; [intros H; destruct (NoPush H)
                   |intros [H|H]; discriminate]|].
    split; [intros H; destruct (NoPush H)|].
    split; [|split].
    + intros email name. split.
      * intros [H|[H|H]]; try discriminate.
        destruct (getUserByEmail w (c :: e)) as [[u|]|] eqn:Q;
          [| |destruct H].
        -- apply loadReports_effects in H.
           destruct H as [H|[H|[l H]]]; discriminate.
        -- destruct H as [H|H].
           ++ injection H as <- <-.
              repeat split; auto; discriminate.
           ++ destruct (createUser w (c :: e) (str "Anonymous User"))
                as [u|]; [|destruct H].
              apply loadReports_effects in H.
              destruct H as [H|[H|[l H]]]; discriminate.
      * intros (E & N & Q & ->). injection E as <-. rewrite Q.
        simpl. auto.
    + intros u [H|[H|H]]; try discriminate.
      exists (c :: e). split; [reflexivity|].
      destruct (getUserByEmail w (c :: e)) as [[u0|]|] eqn:Q;
        [| |destruct H].
      * apply loadReports_effects in H.
        destruct H as [H|[H|[l H]]]; try discriminate.
        injection H as H. subst u. left. split; [reflexivity|discriminate].
      * destruct H as [H|H]; [discriminate|].
        destruct (createUser w (c :: e) (str "Anonymous User"))
          as [u0|] eqn:Cu; [|destruct H].
        apply loadReports_effects in H.
        destruct H as [H|[H|[l H]]]; try discriminate.
        injection H as H. subst u. right. auto.
    + intros email E N Q. injection E as <-. now rewrite Q.
  - (* no email *)
    split; [split; [auto|simpl; auto]|].
    split; [reflexivity|].
    split; [intros email name; split;
            [intros H; simpl in H; not_in H
            |intros (E & _); discriminate]|].
    split; [intros u H; simpl in H; not_in H|].
    intros email E. discriminate.
Qed.

Lemma checkUser_calls_witness :
  let w := Samples.world Throws Throws (Some (str "bob@example.org")) in
  In (CreateUser (str "bob@example.org") "Anonymous User") (checkUser w)
  /\ ~ In (RouterPush "/login") (checkUser w).
Proof.
  intros w.
  destruct (checkUser_calls w) as (H1 & _ & H2 & _).
  split.
  - apply (proj2 (H2 (str "bob@example.org") "Anonymous User"%string)).
    repeat split; try reflexivity. discriminate.
  - intros H. apply (proj1 H1) in H. destruct H; discriminate.
Defined.

Lemma formatReports_valid (rows : list StoredReport) :
  Forall (fun r => exists ms,
              stored_createdAt r = Date.TimeValue ms
              /\ - Date.maxTime <= ms <= Date.maxTime) rows ->
  exists l,
    formatReports rows = Some l
    /\ Forall2 (fun r r' =>
                  report_id r' = stored_id r
                  /\ report_location r' = stored_location r
                  /\ report_wasteType r' = stored_wasteType r
                  /\ report_amount r' = stored_amount r
                  /\ exists ms,
                       stored_createdAt r = Date.TimeValue ms
                       /\ report_createdAt r' = Date.dayString ms)
         rows l.
Proof.
  induction 1 as [|r rows (ms & D & Rg) _ (l & E & F)].
  - exists []. split; [reflexivity|constructor].
  - simpl. unfold formatReport at 1. rewrite D, (formatCreatedAt_day ms Rg), E.
    eexists. split; [reflexivity|].
    constructor; [|exact F]. cbn. eauto 10.
Qed.

Lemma formatReports_invalid (rows : list StoredReport) :
  Exists (fun r => Date.toISOString (stored_createdAt r) = None) rows ->
  formatReports rows = None.
Proof.
  induction 1 as [r rows H|r rows _ IH]; simpl.
  - unfold formatReport, formatCreatedAt. now rewrite H.
  - rewrite IH. now destruct (formatReport r).
Qed.

(** X11: For a known user, [checkUser] replaces the recent-reports list by the
    rows the store answers, in the same order and one for one, each with its
    creation time turned into the calendar day YYYY-MM-DD. *)
Theorem checkUser_loads_reports (w : World) (s : PageState)
    (email : jsstring) (u : User) (rows : list StoredReport) :
  localStorage_getItem w (str "userEmail") = Some email ->
  email <> [] ->
  getUserByEmail w email = Returns (Some u) ->
  getRecentReports w = Returns rows ->
  Forall (fun r => exists ms,
              stored_createdAt r = Date.TimeValue ms
              /\ - Date.maxTime <= ms <= Date.maxTime) rows ->
  let s' := run (checkUser w) s in
  user s' = Some u
  /\ List.length (reports s') = List.length rows
  /\ Forall2 (fun r r' =>
                report_id r' = stored_id r
                /\ report_location r' = stored_location r
                /\ report_wasteType r' = stored_wasteType r
                /\ report_amount r' = stored_amount r
                /\ exists ms,
                     stored_createdAt r = Date.TimeValue ms
                     /\ report_createdAt r' = Date.dayString ms)
       rows (reports s')
  /\ ~ (exists e n, In (CreateUser e n) (checkUser w)).
Proof.
  intros G N Q R V s'. subst s'.
  destruct (formatReports_valid rows V) as (l & E & F).
  rewrite (checkUser_known_user w email u G N Q).
  unfold loadReports. rewrite R, E. cbn.
  split; [reflexivity|].
  split; [symmetry; eapply Forall2_length; eauto|].
  split; [exact F|].
  intros (e & n & H). not_in H.
Qed.

Lemma checkUser_loads_reports_witness :
  let w :=
    {| readAsDataURL := fun _ => Throws;
       generateContent := fun _ _ _ => Throws;
       createReport := fun _ => Throws;
       getUserByEmail := fun _ => Returns (Some Samples.alice);
       createUser := fun _ _ => Throws;
       getRecentReports := Returns [Samples.storedRow];
       localStorage_getItem := fun _ => Some (str "alice@example.org");
       stringify := fun _ => str "{}" |} in
  user (run (checkUser w) initialState) = Some Samples.alice
  /\ map report_createdAt (reports (run (checkUser w) initialState))
     = [str "2009-02-13"].
Proof.
  intros w.
  destruct (checkUser_loads_reports w initialState (str "alice@example.org")
              Samples.alice [Samples.storedRow] eq_refl
              ltac:(discriminate) eq_refl eq_refl) as (H & _).
  - constructor; [|constructor].
    exists 1234567890000. split; [reflexivity|unfold Date.maxTime; lia].
  - split; [exact H|reflexivity].
Defined.

(** X12: One row whose creation date is invalid spoils the whole list: the user
    is set, but [setReports] is never reached and the reports stay as they
    were. *)
Theorem checkUser_invalid_date (w : World) (s : PageState)
    (email : jsstring) (u : User) (rows : list StoredReport) :
  localStorage_getItem w (str "userEmail") = Some email ->
  email <> [] ->
  getUserByEmail w email = Returns (Some u) ->
  getRecentReports w = Returns rows ->
  Exists (fun r => Date.toISOString (stored_createdAt r) = None) rows ->
  let s' := run (checkUser w) s in
  user s' = Some u
  /\ reports s' = reports s
  /\ forall l, ~ In (SetReports l) (checkUser w).
Proof.
  intros G N Q R X s'. subst s'.
  rewrite (checkUser_known_user w email u G N Q).
  unfold loadReports. rewrite R, (formatReports_invalid rows X). cbn.
  split; [reflexivity|]. split; [reflexivity|].
  intros l H. not_in H.
Qed.

Lemma checkUser_invalid_date_witness :
  let row :=
    {| stored_id := 43; stored_location := str "Quay 2";
       stored_wasteType := str "glass"; stored_amount := str "1kg";
       stored_createdAt := Date.Invalid |} in
  let w :=
    {| readAsDataURL := fun _ => Throws;
       generateContent := fun _ _ _ => Throws;
       createReport := fun _ => Throws;
       getUserByEmail := fun _ => Returns (Some Samples.alice);
       createUser := fun _ _ => Throws;
       getRecentReports := Returns [Samples.storedRow; row];
       localStorage_getItem := fun _ => Some (str "alice@example.org");
       stringify := fun _ => str "{}" |} in
  user (run (checkUser w) initialState) = Some Samples.alice
  /\ reports (run (checkUser w) initialState) = [].
Proof.
  intros row w.
  destruct (checkUser_invalid_date w initialState (str "alice@example.org")
              Samples.alice [Samples.storedRow; row] eq_refl
              ltac:(discriminate) eq_refl eq_refl) as (H1 & H2 & _).
  - right. left. reflexivity.
  - split; [exact H1|exact H2].
Defined.

(** ** Handlers in flight *)

(** Cutting a handler into segments loses nothing. *)
Lemma segments_concat (task : list Update) :
  List.concat (segments task) = task.
Proof.
  induction task as [|u task IH]; [reflexivity|]. simpl.
  destruct (suspends u); simpl; [now rewrite IH|].
  destruct (segments task) as [|seg more]; simpl in *.
  - now rewrite <- IH.
  - now rewrite <- IH.
Qed.

Ltac preserve :=
  match goal with
  | |- preserves _ =>
      let s := fresh "s" in
      let J := fresh "J" in
      let I := fresh "I" in
      intros s [J I]; split; cbn; intros; try discriminate; auto
  end.

Ltac all_preserve :=
  cbn; repeat (constructor; [preserve|]); try constructor.

Lemma handleVerify_segments (w : World) (s : PageState) :
  Forall preserves (segments (map Do (handleVerify w s))).
Proof.
  unfold handleVerify.
  destruct (file s) as [f|]; [|constructor].
  destruct (readAsDataURL w f) as [url|]; [|all_preserve].
  cbv zeta.
  destruct (generateContent w prompt (nth_error (split 44 url) 1) (file_type f))
    as [text|]; [|all_preserve].
  destruct (verifyResponse_cases s text)
    as [(v & a & b & c & P & A & B & C & Ta & Tb & Tc & E)|[msg E]];
    rewrite E; [|all_preserve].
  cbn. repeat (constructor; [preserve|]); try constructor.
  exists v, a, b, c. auto 10.
Qed.

Lemma handleSubmit_segments (w : World) (s : PageState) :
  Forall preserves (segments (map Do (handleSubmit w s))).
Proof.
  unfold handleSubmit.
  destruct (verificationStatus s), (user s) as [u|]; try all_preserve.
  destruct (createReport w (submitArgs w u s)) as [[report|]|];
    [destruct (formatReport report)| |]; all_preserve.
Qed.

Lemma handleFileChange_segments (w : World) (files : option (list File)) :
  Forall preserves (segments (map Do (handleFileChange w files))).
Proof.
  unfold handleFileChange.
  destruct files as [[|f rest]|]; try all_preserve.
  destruct (readAsDataURL w f); all_preserve.
Qed.

Lemma checkUser_segments (w : World) :
  Forall preserves (segments (map Do (checkUser w))).
Proof.
  unfold checkUser, loadReports.
  destruct (localStorage_getItem w (str "userEmail")) as [[|c e]|];
    try all_preserve.
  cbv zeta.
  destruct (getUserByEmail w (c :: e)) as [[u|]|]; try all_preserve.
  - destruct (getRecentReports w) as [rows|];
      [destruct (formatReports rows)|]; all_preserve.
  - destruct (createUser w (c :: e) (str "Anonymous User")) as [u|];
      try all_preserve.
    destruct (getRecentReports w) as [rows|];
      [destruct (formatReports rows)|]; all_preserve.
Qed.

Lemma handler_segments (w : World) (ev : Event) (s : PageState) :
  Forall preserves (segments (handler w ev s)).
Proof.
  destruct ev as [|ref|places|name value|files| |]; unfold handler.
  - apply checkUser_segments.
  - all_preserve.
  - unfold onPlacesChanged.
    destruct (searchBox s); [destruct places as [[|place rest]|]|];
      all_preserve.
  - all_preserve.
  - apply handleFileChange_segments.
  - apply handleVerify_segments.
  - apply handleSubmit_segments.
Qed.

Lemma reachable_coherent (c : Config) :
  reachable c ->
  coherent (page c) /\ Forall (Forall preserves) (pending c).
Proof.
  induction 1 as [|c c' _ [Hpage Hpend] St].
  - split; [|constructor]. split; [reflexivity|discriminate].
  - destruct St as [w ev c|c before after seg rest E].
    + pose proof (handler_segments w ev (page c)) as Hs.
      destruct (segments (handler w ev (page c))) as [|seg rest];
        [auto|].
      inversion Hs as [|? ? Hseg Hrest]; subst. cbn. split.
      * apply Hseg, Hpage.
      * constructor; assumption.
    + rewrite E in Hpend. apply Forall_app in Hpend.
      destruct Hpend as [Hb Ha].
      inversion Ha as [|? ? Htask Hafter]; subst.
      inversion Htask as [|? ? Hseg Hrest]; subst. cbn. split.
      * apply Hseg, Hpage.
      * apply Forall_app. split; [exact Hb|]. constructor; assumption.
Qed.

(** X13: However the handlers interleave -- each running from one awaited call
    to the next while others are in flight -- the status and the stored
    result agree: in every state the page can reach, status [idle] comes
    with no stored result, and status [success] with a stored result whose
    [wasteType], [quantity] and [confidence] are truthy. *)
Theorem status_and_result_agree (c : Config) :
  reachable c ->
  (verificationStatus (page c) = idle -> verificationResult (page c) = None)
  /\ (verificationStatus (page c) = success ->
      validResult (verificationResult (page c))).
Proof. intros R. exact (proj1 (reachable_coherent c R)). Qed.

Lemma validResult_truthy (v : JSValue) :
  validResult (Some v) -> truthy v = true.
Proof.
  intros (v' & a & b & c & E & A & _ & _ & Ta & _).
  injection E as <-.
  destruct v; simpl in A; try discriminate; try reflexivity;
    injection A as <-; discriminate.
Qed.

(** X14: Every report the page can send to the store carries a verification
    result: in any state the page can reach, a [createReport] call made by
    [handleSubmit] passes the serialization of the stored result, whose three
    fields are truthy, and never leaves that argument undefined. *)
Theorem submitted_reports_are_verified (c : Config) (w : World)
    (args : CreateReportArgs) :
  reachable c ->
  In (CreateReport args) (handleSubmit w (page c)) ->
  exists v,
    verificationResult (page c) = Some v
    /\ validResult (Some v)
    /\ arg_verificationResult args = Some (stringify w v).
Proof.
  intros R H.
  destruct (reachable_coherent c R) as [[_ I] _].
  unfold handleSubmit in H.
  destruct (verificationStatus (page c)) eqn:St;
    try solve [destruct (user (page c)); simpl in H; not_in H].
  destruct (user (page c)) as [u|] eqn:U; [|simpl in H; not_in H].
  destruct (I eq_refl) as (v & a & b & c' & E & V).
  assert (Vr : validResult (Some v)) by (exists v, a, b, c'; auto).
  exists v. split; [exact E|]. split; [exact Vr|].
  assert (A : args = submitArgs w u (page c)).
  { destruct H as [H|[H|[H|H]]]; try discriminate.
    - now injection H.
    - destruct (createReport w (submitArgs w u (page c))) as [[report|]|];
        [destruct (formatReport report)| |]; simpl in H; not_in H. }
  subst args. unfold submitArgs. cbn.
  rewrite E, (validResult_truthy v Vr). reflexivity.
Qed.

Lemma reachable_start (w : World) (ev : Event) (c : Config) :
  reachable c -> reachable (start w ev c).
Proof. intros R. exact (reachable_step _ _ R (step_start w ev c)). Qed.

Lemma reachable_resume (c : Config) :
  reachable c -> reachable (resume c).
Proof.
  intros R. unfold resume.
  destruct (pending c) as [|[|seg rest] after] eqn:E; try exact R.
  exact (reachable_step _ _ R (step_resume c [] after seg rest E)).
Qed.

Lemma visit_reachable : reachable visit.
Proof.
  unfold visit.
  do 2 apply reachable_resume. apply reachable_start.
  apply reachable_resume. apply reachable_start.
  do 3 apply reachable_resume. apply reachable_start.
  constructor.
Qed.

Example visit_page :
  verificationStatus (page visit) = success
  /\ verificationResult (page visit) = Some Samples.plasticResult
  /\ file (page visit) = Some Samples.wasteFile
  /\ type (newReport (page visit)) = JStr (str "plastic")
  /\ map user_name (match user (page visit) with Some u => [u] | None => [] end)
     = [str "Anonymous User"]
  /\ map report_createdAt (reports (page visit)) = [str "2009-02-13"].
Proof. vm_compute. repeat split. Qed.

Lemma status_and_result_agree_witness :
  validResult (verificationResult (page visit)).
Proof.
  apply (proj2 (status_and_result_agree visit visit_reachable)).
  vm_compute. reflexivity.
Defined.

Lemma submitted_reports_are_verified_witness :
  exists v,
    verificationResult (page visit) = Some v
    /\ validResult (Some v)
    /\ arg_verificationResult
         (submitArgs visitWorld
            {| user_id := 1; user_email := str "bob@example.org";
               user_name := str "Anonymous User" |} (page visit))
       = Some (stringify visitWorld v).
Proof.
  apply (submitted_reports_are_verified visit visitWorld _ visit_reachable).
  vm_compute. right. right. left. reflexivity.
Defined.

(** ** From verification to submission *)

Lemma handleSubmit_calls_once (w : World) (s : PageState) (u : User) :
  verificationStatus s = success ->
  user s = Some u ->
  filter is_createReport (handleSubmit w s)
  = [CreateReport (submitArgs w u s)].
Proof.
  intros St U. rewrite (handleSubmit_accepted w s u St U).
  destruct (createReport w (submitArgs w u s)) as [[report|]|];
    [destruct (formatReport report)| |]; reflexivity.
Qed.

(** X15: Verify, correct the location, submit: the store receives the edited
    location together with the type and amount read from the response, the
    current preview and the serialized verification result.  Editing the
    location does not cost the verification. *)
Theorem verify_edit_submit (w w' : World) (s : PageState) (f : File)
    (u : User) (text value : jsstring) (v a b c : JSValue) :
  file s = Some f ->
  user s = Some u ->
  modelResponse w f = Returns text ->
  JSON.parse text = Some v ->
  prop v (str "wasteType") = Some a ->
  prop v (str "quantity") = Some b ->
  prop v (str "confidence") = Some c ->
  truthy a = true -> truthy b = true -> truthy c = true ->
  let verified := run (handleVerify w s) s in
  let edited :=
    runUpdates (handleInputChange verified LocationField value) verified in
  filter is_createReport (handleSubmit w' edited)
  = [CreateReport
       {| arg_userId := user_id u;
          arg_location := value;
          arg_type := a;
          arg_amount := b;
          arg_imageUrl := arg_imageUrl (submitArgs w' u s);
          arg_verificationResult := Some (stringify w' v) |}].
Proof.
  intros F U R P A B C Ta Tb Tc verified edited.
  assert (V : truthy v = true).
  { apply validResult_truthy. exists v, a, b, c. auto 10. }
  assert (E : verified
              = run [SetVerificationResult (Some v);
                     SetVerificationStatus success;
                     SetNewReport {| location := location (newReport s);
                                     type := a; amount := b |}]
                  (apply (SetVerificationStatus verifying) s)).
  { subst verified. rewrite (handleVerify_run w s f F), R.
    now rewrite (verifyResponse_accepts s text v a b c P A B C Ta Tb Tc). }
  assert (St : verificationStatus edited = success)
    by (subst edited; rewrite E; reflexivity).
  assert (U' : user edited = Some u)
    by (subst edited; rewrite E; exact U).
  rewrite (handleSubmit_calls_once w' edited u St U').
  subst edited. rewrite E. unfold submitArgs. cbn. rewrite V. reflexivity.
Qed.

Lemma verify_edit_submit_witness :
  let w := Samples.world (Returns Samples.plasticText) Throws None in
  let verified :=
    run (handleVerify w Samples.pickedState) Samples.pickedState in
  let edited :=
    runUpdates (handleInputChange verified LocationField (str "Elm Road 5"))
      verified in
  filter is_createReport (handleSubmit w edited)
  = [CreateReport
       {| arg_userId := 7;
          arg_location := str "Elm Road 5";
          arg_type := JStr (str "plastic");
          arg_amount := JStr (str "2kg");
          arg_imageUrl := Some Samples.dataURL;
          arg_verificationResult := Some (str "{}") |}].
Proof.
  intros w verified edited.
  exact (verify_edit_submit w w Samples.pickedState Samples.wasteFile
           Samples.alice Samples.plasticText (str "Elm Road 5")
           Samples.plasticResult (JStr (str "plastic")) (JStr (str "2kg"))
           (JNum (S754_finite false 7836263351624663 (-53)))
           eq_refl eq_refl eq_refl eq_refl eq_refl eq_refl eq_refl
           eq_refl eq_refl eq_refl).
Defined.
